(** * music_rip: the batch runner of the YouTube audio downloader

    A shallow embedding of
    - [youtube_audio_downloader/utils/validators.py] ([validate_url]),
    - [youtube_audio_downloader/core/downloader.py] ([download],
      [download_audio]),
    - [youtube_audio_downloader/cli/batch.py] ([BatchProcessor], [main]),
    together with the properties of the batch runner.

    Conventions of the embedding.
    - Python [str] is [string]; a character is a code point below 256.
    - What the program prints with [click.echo] is a list of [echo]
      values, one constructor per message of the source; the text of the
      message is given next to each constructor.
    - Everything the environment decides (what yt-dlp does on a call, what
      the clock shows, whether a file write goes through) is read from an
      [Env] record, indexed by the position of the entry being processed.
    - The resume file is one cell, [disk : option file]. *)

From Stdlib Require Import ZArith Ascii String List Bool Lia.
From stdpp Require Import base decidable option list strings gmap pretty.

#[local] Open Scope string_scope.
#[local] Open Scope list_scope.

(* ===================================================================== *)
(** ** Python strings *)
(* ===================================================================== *)

Module PyStr.

(** [str.isspace] on the code points below 256: TAB, LF, VT, FF, CR,
    the separators FS, GS, RS, US, SPACE, NEL and NBSP. *)
Definition isspace (c : ascii) : bool :=
  let n := nat_of_ascii c in
  (Nat.leb 9 n && Nat.leb n 13) || (Nat.leb 28 n && Nat.leb n 32)
  || Nat.eqb n 133 || Nat.eqb n 160.

Definition is_empty (s : string) : bool :=
  match s with EmptyString => true | String _ _ => false end.

(** [s.lstrip()] *)
Fixpoint lstrip (s : string) : string :=
  match s with
  | EmptyString => EmptyString
  | String c s' => if isspace c then lstrip s' else s
  end.

(** [s.rstrip()] *)
Fixpoint rstrip (s : string) : string :=
  match s with
  | EmptyString => EmptyString
  | String c s' =>
      let r := rstrip s' in
      if isspace c && is_empty r then EmptyString else String c r
  end.

(** [s.strip()] *)
Definition strip (s : string) : string := rstrip (lstrip s).

(** [s.startswith(p)] *)
Definition startswith (p s : string) : bool := String.prefix p s.

(** [s.startswith((p1, p2, ...))]: true when one of the prefixes fits. *)
Definition startswith_any (ps : list string) (s : string) : bool :=
  existsb (fun p => startswith p s) ps.

Definition LF : ascii := ascii_of_nat 10.

(** Iterating over a text file yields its lines, each with its
    terminating LF; a last line without LF is yielded as it is. *)
Fixpoint file_lines (s : string) : list string :=
  match s with
  | EmptyString => []
  | String c s' =>
      if Ascii.eqb c LF then String LF EmptyString :: file_lines s'
      else match file_lines s' with
           | [] => [String c EmptyString]
           | l :: ls => String c l :: ls
           end
  end.

(** Text mode with [newline=None]: CR LF and a lone CR are read as LF. *)
Fixpoint universal_newlines (s : string) : string :=
  match s with
  | EmptyString => EmptyString
  | String c s' =>
      if Ascii.eqb c (ascii_of_nat 13) then
        match s' with
        | String c' s'' =>
            if Ascii.eqb c' LF then String LF (universal_newlines s'')
            else String LF (universal_newlines s')
        | EmptyString => String LF EmptyString
        end
      else String c (universal_newlines s')
  end.

End PyStr.

(* ===================================================================== *)
(** ** utils/validators.py *)
(* ===================================================================== *)

(** The tuple given to [url.startswith] in [validate_url]. *)
Definition url_prefixes : list string := ["http://"; "https://"; "www."].

(** [validate_url(url)]: [url.startswith(('http://', 'https://', 'www.'))] *)
Definition validate_url (url : string) : bool :=
  PyStr.startswith_any url_prefixes url.

(* ===================================================================== *)
(** ** Python dictionaries with string keys *)
(* ===================================================================== *)

(** A [dict] keeps its keys in the order of their first insertion; an
    assignment to a key that is present replaces the value where it is. *)
Module PyDict.

Definition t (V : Type) : Type := list (string * V).

(** [d.get(k)] *)
Fixpoint get {V} (k : string) (d : t V) : option V :=
  match d with
  | [] => None
  | (k', v) :: d' => if String.eqb k k' then Some v else get k d'
  end.

(** [d[k] = v] *)
Fixpoint set {V} (k : string) (v : V) (d : t V) : t V :=
  match d with
  | [] => [(k, v)]
  | (k', v') :: d' =>
      if String.eqb k k' then (k', v) :: d' else (k', v') :: set k v d'
  end.

(** [k in d] *)
Definition mem {V} (k : string) (d : t V) : bool :=
  match get k d with Some _ => true | None => false end.

(** [list(d)] *)
Definition keys {V} (d : t V) : list string := map fst d.

End PyDict.

(* ===================================================================== *)
(** ** core/downloader.py *)
(* ===================================================================== *)

(** What a call can raise towards its caller: [KeyboardInterrupt], or an
    instance of [Exception], of which the callers only use [str(e)]. *)
Inductive exn : Type :=
| KeyboardInterrupt
| PyException (msg : string).

Inductive outcome (A : Type) : Type :=
| Return (a : A)
| Raise (e : exn).
Arguments Return {A} a.
Arguments Raise {A} e.

(** The keyword arguments of [download]. *)
Record options : Type := Options {
  output_dir : string;
  quality : string;
  format : string;
  keep_video : bool;
  playlist : bool;
  verbose : bool
}.

(** What yt-dlp does inside the [try] block of [download] (the
    [YoutubeDL] context, [extract_info], [download]). *)
Inductive ydl_event : Type :=
| YdlDone
| YdlDownloadError (msg : string)
| YdlKeyboardInterrupt
| YdlException (msg : string).

(** One call of [download] as the environment decides it: [prologue] is
    what the statements before the [try] raise ([output_dir.mkdir],
    building the options), [None] when they complete; [body] is what
    happens inside the [try]. *)
Record fetch_event : Type := FetchEvent {
  prologue : option exn;
  body : ydl_event
}.

(** [YouTubeDownloader.download]: the statements before the [try] are not
    guarded; inside it, [DownloadError], [KeyboardInterrupt] and
    [Exception] all end in [return False]. *)
Definition download (ev : fetch_event) (url : string) (opts : options)
  : outcome bool :=
  match prologue ev with
  | Some e => Raise e
  | None =>
      match body ev with
      | YdlDone => Return true
      | YdlDownloadError _ => Return false
      | YdlKeyboardInterrupt => Return false
      | YdlException _ => Return false
      end
  end.

(** [download_audio]: builds a [YouTubeDownloader] and calls [download]. *)
Definition download_audio (ev : fetch_event) (url : string) (opts : options)
  : outcome bool :=
  download ev url opts.

(* ===================================================================== *)
(** ** cli/batch.py: data *)
(* ===================================================================== *)

(** The value stored under a URL in [failed_urls]:
    [{'line': ..., 'error': ..., 'timestamp': ...}]. *)
Record fail_info : Type := FailInfo {
  line : nat;
  error : string;
  timestamp : string
}.

(** The two attributes of a [BatchProcessor] that change; [resume_file]
    is the fixed path whose content is the [disk] cell below. *)
Record BatchProcessor : Type := Processor {
  processed_urls : gset string;
  failed_urls : PyDict.t fail_info
}.

(** A resume file that parses as JSON, as [json.load] returns it: an
    object in which each of the three fields may be missing. *)
Record resume_doc : Type := ResumeDoc {
  doc_processed : option (list string);
  doc_failed : option (PyDict.t fail_info);
  doc_last_updated : option string
}.

(** The content of the resume file: text that cannot be read or is not
    JSON, or a JSON document. The cell itself is an [option file], [None]
    when the file does not exist. These are the files that
    [load_resume_data] gets through; one on which it raises is a
    [LoadRaises] of [resume_store] below. *)
Inductive file : Type :=
| Unparsable
| Json (d : resume_doc).

(** What happens to a write of the resume file: it goes through, or an
    [IOError] is raised before the file is opened for writing ([mkdir],
    [open]), or after it was truncated. *)
Inductive write_event : Type :=
| WriteOk
| IOErrorBeforeOpen
| IOErrorWhileWriting.

(** Each message of [batch.py], with the text it stands for. *)
Inductive echo : Type :=
| EchoInvalidUrl (line_num : nat) (text : string)
    (* "Line {line_num}: Skipping invalid URL: {line}" *)
| EchoReadError
    (* "Error reading file: {e}" *)
| EchoSkipProcessed (idx total : nat) (url : string)
    (* "[{idx}/{total_urls}] Skipping already processed: {url}" *)
| EchoRule
    (* '=' * 60 *)
| EchoProcessing (idx total line_num : nat)
    (* "[{idx}/{total_urls}] Processing URL from line {line_num}" *)
| EchoUrl (url : string)
    (* "URL: {url}" *)
| EchoCheckingExisting
    (* "Checking for existing files..." *)
| EchoDownloadOk
    (* "Download successful!" *)
| EchoDownloadFailed
    (* "Download failed!" *)
| EchoInterrupted
    (* "Batch processing interrupted by user" *)
| EchoProgressSaved (idx : nat)
    (* "Progress saved. Use --resume to continue from URL {idx}" *)
| EchoUnexpected (msg : string)
    (* "Unexpected error: {e}" *)
| EchoBanner
    (* "YouTube Audio Batch Downloader" *)
| EchoCleared
    (* "Cleared resume data" *)
| EchoReading (path : string)
    (* "Reading URLs from: {file}" *)
| EchoNoValidUrls
    (* "No valid URLs found in file" *)
| EchoFound (n : nat)
    (* "Found {len(urls)} URLs to process" *)
| EchoSkipping (skip_count : nat)
    (* "Skipping {skip_count} already processed URLs" *)
| EchoSettings (opts : options) (skip_existing resume : bool)
    (* "Settings:" and its six lines *)
| EchoStarting
    (* "Starting batch download..." *)
| EchoSummary (total success failed : nat) (duration : string)
    (* "Batch Processing Summary" and its four lines *)
| EchoFailedHeader
    (* "Failed URLs:" *)
| EchoFailedUrl (line_num : nat) (url : string)
    (* "  Line {info['line']}: {url}" *)
| EchoFailedError (msg : string)
    (* "    Error: {info['error']}" *)
| EchoReportSaved (path : string)
    (* "Report saved to: {report}" *)
| EchoReportError
    (* "Could not save report: {e}" *).

#[global] Instance exn_eq_dec : EqDecision exn.
Proof. solve_decision. Defined.
#[global] Instance options_eq_dec : EqDecision options.
Proof. solve_decision. Defined.
#[global] Instance echo_eq_dec : EqDecision echo.
Proof. solve_decision. Defined.

(** Everything the environment decides during one run. The functions are
    indexed by [idx], the 1-based position of the entry in the list given
    to [process_urls]. *)
Record Env : Type := MkEnv {
  fetch : nat -> fetch_event;       (* the call of [download_audio] *)
  failure_time : nat -> string;     (* [datetime.now().isoformat()] in a failure record *)
  save_time : nat -> string;        (* the same in [save_resume_data] *)
  save_io : nat -> write_event;     (* the write in [save_resume_data] *)
  duration : string;                (* [end_time - start_time] *)
  report_time : string;             (* [datetime.now()] in the report *)
  report_io : bool                  (* the report file can be written *)
}.

(* ===================================================================== *)
(** ** cli/batch.py: BatchProcessor *)
(* ===================================================================== *)

(** [load_resume_data]: nothing changes when the file does not exist or
    cannot be read or parsed; otherwise both attributes are replaced,
    a missing field being read as empty. *)
Definition load_resume_data (self : BatchProcessor) (disk : option file)
  : BatchProcessor :=
  match disk with
  | None => self
  | Some Unparsable => self
  | Some (Json data) =>
      {| processed_urls := list_to_set (default [] (doc_processed data));
         failed_urls := default [] (doc_failed data) |}
  end.

(** [__init__]: both attributes empty, then [load_resume_data]. *)
Definition BatchProcessor_init (disk : option file) : BatchProcessor :=
  load_resume_data {| processed_urls := ∅; failed_urls := [] |} disk.

(** The dictionary given to [json.dump] in [save_resume_data]. *)
Definition resume_data (now : string) (self : BatchProcessor) : resume_doc :=
  {| doc_processed := Some (elements (processed_urls self));
     doc_failed := Some (failed_urls self);
     doc_last_updated := Some now |}.

(** [save_resume_data]: returns the new content of the resume file; an
    [IOError] is swallowed ([except IOError: pass]). *)
Definition save_resume_data (now : string) (w : write_event)
    (self : BatchProcessor) (disk : option file) : option file :=
  match w with
  | WriteOk => Some (Json (resume_data now self))
  | IOErrorBeforeOpen => disk
  | IOErrorWhileWriting => Some Unparsable
  end.

(** The input file as [open] and the iteration over it deliver it. *)
Inductive file_input : Type :=
| FileIOError
| FileText (text : string).

(** A function that may end the process with [sys.exit(code)]. *)
Inductive exit_or (A : Type) : Type :=
| Done (a : A)
| SysExit (code : Z).
Arguments Done {A} a.
Arguments SysExit {A} code.

(** The [for line_num, line in enumerate(f, 1)] loop of
    [read_urls_from_file]; [urls] is the list being built, [out] what
    has been echoed. *)
Fixpoint read_loop (line_num : nat) (lines : list string)
    (urls : list (nat * string)) (out : list echo)
  : list (nat * string) * list echo :=
  match lines with
  | [] => (urls, out)
  | raw :: rest =>
      let line := PyStr.strip raw in
      if PyStr.is_empty line || PyStr.startswith "#" line then
        read_loop (S line_num) rest urls out
      else if validate_url line then
        read_loop (S line_num) rest (urls ++ [(line_num, line)]) out
      else
        read_loop (S line_num) rest urls (out ++ [EchoInvalidUrl line_num line])
  end.

(** [read_urls_from_file]: the list of [(line_number, url)] and what was
    echoed; an [IOError] ends the process with status 1. *)
Definition read_urls_from_file (input : file_input)
  : exit_or (list (nat * string)) * list echo :=
  match input with
  | FileIOError => (SysExit 1, [EchoReadError])
  | FileText text =>
      let '(urls, out) :=
        read_loop 1 (PyStr.file_lines (PyStr.universal_newlines text)) [] [] in
      (Done urls, out)
  end.

(* ===================================================================== *)
(** ** cli/batch.py: process_urls *)
(* ===================================================================== *)

(** The variables of [process_urls] while it runs: the two counters,
    the processor, the resume file, what has been echoed, and the calls
    of [download_audio] made so far, in order. *)
Record run : Type := Run {
  success_count : nat;
  failed_count : nat;
  self : BatchProcessor;
  disk : option file;
  echoed : list echo;
  calls : list (string * options)
}.

Definition say (msgs : list echo) (r : run) : run :=
  Run (success_count r) (failed_count r) (self r) (disk r)
      (echoed r ++ msgs) (calls r).

Definition call (url : string) (opts : options) (r : run) : run :=
  Run (success_count r) (failed_count r) (self r) (disk r)
      (echoed r) (calls r ++ [(url, opts)]).

(** [success_count += 1] *)
Definition count_success (r : run) : run :=
  Run (S (success_count r)) (failed_count r) (self r) (disk r)
      (echoed r) (calls r).

(** [failed_count += 1] *)
Definition count_failed (r : run) : run :=
  Run (success_count r) (S (failed_count r)) (self r) (disk r)
      (echoed r) (calls r).

(** [self.processed_urls.add(url)] *)
Definition add_processed (url : string) (r : run) : run :=
  Run (success_count r) (failed_count r)
      (Processor ({[url]} ∪ processed_urls (self r)) (failed_urls (self r)))
      (disk r) (echoed r) (calls r).

(** [self.failed_urls[url] = {'line': ..., 'error': ..., 'timestamp': ...}] *)
Definition set_failed (url : string) (info : fail_info) (r : run) : run :=
  Run (success_count r) (failed_count r)
      (Processor (processed_urls (self r))
                 (PyDict.set url info (failed_urls (self r))))
      (disk r) (echoed r) (calls r).

(** [self.save_resume_data()] while entry [idx] is being processed. *)
Definition save (E : Env) (idx : nat) (r : run) : run :=
  Run (success_count r) (failed_count r) (self r)
      (save_resume_data (save_time E idx) (save_io E idx) (self r) (disk r))
      (echoed r) (calls r).

(** [if resume: self.save_resume_data()] *)
Definition save_if (resume : bool) (E : Env) (idx : nat) (r : run) : run :=
  if resume then save E idx r else r.

(** How the body of the [for] loop ends: the loop goes on, or [break]. *)
Inductive flow : Type := Next | Break.

(** The body of the [for idx, (line_num, url) in enumerate(urls, 1)] loop.
    Inside the [try], only the call of [download_audio] raises: [click.echo]
    always prints, and [save_resume_data] swallows its [IOError]. *)
Definition process_entry (E : Env) (opts : options)
    (skip_existing resume : bool) (total idx : nat)
    (entry : nat * string) (r : run) : flow * run :=
  let '(line_num, url) := entry in
  if resume && bool_decide (url ∈ processed_urls (self r)) then
    (Next, count_success (say [EchoSkipProcessed idx total url] r))
  else
    let r := say [EchoRule; EchoProcessing idx total line_num; EchoUrl url] r in
    let r := if skip_existing then say [EchoCheckingExisting] r else r in
    let r := call url opts r in
    match download_audio (fetch E idx) url opts with
    | Return true =>
        let r := say [EchoDownloadOk] (add_processed url (count_success r)) in
        (Next, save_if resume E idx r)
    | Return false =>
        let info := FailInfo line_num "Download failed" (failure_time E idx) in
        let r := say [EchoDownloadFailed] (set_failed url info (count_failed r)) in
        (Next, save_if resume E idx r)
    | Raise KeyboardInterrupt =>
        let r := say [EchoInterrupted] r in
        let r := if resume then say [EchoProgressSaved idx] (save E idx r)
                 else r in
        (Break, r)
    | Raise (PyException msg) =>
        let info := FailInfo line_num msg (failure_time E idx) in
        let r := say [EchoUnexpected msg] (set_failed url info (count_failed r)) in
        (Next, save_if resume E idx r)
    end.

(** The [for] loop from position [idx] on. *)
Fixpoint process_loop (E : Env) (opts : options)
    (skip_existing resume : bool) (total idx : nat)
    (urls : list (nat * string)) (r : run) : run :=
  match urls with
  | [] => r
  | entry :: rest =>
      match process_entry E opts skip_existing resume total idx entry r with
      | (Next, r') => process_loop E opts skip_existing resume total (S idx) rest r'
      | (Break, r') => r'
      end
  end.

(** [process_urls]: both counters start at 0 and the loop runs from
    position 1; the method returns [(success_count, failed_count)] of
    the final [run]. *)
Definition process_urls (E : Env) (processor : BatchProcessor)
    (disk0 : option file) (urls : list (nat * string)) (opts : options)
    (skip_existing resume : bool) : run :=
  process_loop E opts skip_existing resume (length urls) 1 urls
    (Run 0 0 processor disk0 [] []).

(* ===================================================================== *)
(** ** cli/batch.py: main *)
(* ===================================================================== *)

(** The values read from the configuration store when an option is not
    given on the command line. *)
Record config : Type := Config {
  default_output_dir : string;
  default_quality : string;
  default_format : string
}.

(** The command line of [main]. *)
Record args : Type := Args {
  arg_file : string;
  arg_output : option string;
  arg_quality : option string;
  arg_format : option string;
  arg_keep_video : bool;
  arg_playlist : bool;
  arg_skip_existing : bool;
  arg_resume : bool;
  arg_clear_resume : bool;
  arg_report : option string;
  arg_verbose : bool
}.

(** The report file written at the end of [main]. *)
Record report : Type := Report {
  rep_generated : string;
  rep_input : string;
  rep_total : nat;
  rep_success : nat;
  rep_failed : nat;
  rep_duration : string;
  rep_failures : list (string * fail_info)
}.

(** What one execution of [main] leaves behind. *)
Record main_result : Type := MainResult {
  exit_code : Z;
  stdout : list echo;
  fetched : list (string * options);
  resume_file : option file;
  report_file : option report
}.

(** The lines of the "Failed URLs:" listing, one pair per item of
    [failed_urls]. *)
Definition failed_listing (d : PyDict.t fail_info) : list echo :=
  flat_map (fun '(url, info) =>
              [EchoFailedUrl (line info) url; EchoFailedError (error info)]) d.

(** [sum(1 for _, url in urls if url in processor.processed_urls)] *)
Definition skip_count (p : BatchProcessor) (urls : list (nat * string)) : nat :=
  length (List.filter (fun e => bool_decide (e.2 ∈ processed_urls p)) urls).

(** The options given to [process_urls]: the command line, with the
    configured defaults where it is silent. *)
Definition main_options (cfg : config) (a : args) : options :=
  Options (default (default_output_dir cfg) (arg_output a))
          (default (default_quality cfg) (arg_quality a))
          (default (default_format cfg) (arg_format a))
          (arg_keep_video a) (arg_playlist a) (arg_verbose a).

(** [main]: builds the processor (which loads the resume file), clears
    the resume data when asked to and the file exists, reads the URLs,
    stops with status 1 when there is none, runs [process_urls], prints
    the summary and the failed URLs, writes the report when asked to, and
    exits with 0 when [failed_count] is 0 and with 1 otherwise. *)
Definition main (cfg : config) (E : Env) (a : args) (input : file_input)
    (disk0 : option file) : main_result :=
  let opts := main_options cfg a in
  let out := [EchoBanner; EchoRule] in
  let processor := BatchProcessor_init disk0 in
  let '(processor, disk1, out) :=
    if arg_clear_resume a && bool_decide (disk0 <> None) then
      (Processor ∅ [], None, out ++ [EchoCleared])
    else (processor, disk0, out) in
  let out := out ++ [EchoReading (arg_file a)] in
  match read_urls_from_file input with
  | (SysExit code, o) => MainResult code (out ++ o) [] disk1 None
  | (Done urls, o) =>
      let out := out ++ o in
      if bool_decide (urls = []) then
        MainResult 1 (out ++ [EchoNoValidUrls]) [] disk1 None
      else
        let out := out ++ [EchoFound (length urls)] in
        let out :=
          if arg_resume a && negb (bool_decide (processed_urls processor = ∅))
          then out ++ [EchoSkipping (skip_count processor urls)] else out in
        let out :=
          out ++ [EchoSettings opts (arg_skip_existing a) (arg_resume a);
                  EchoStarting] in
        let r := process_urls E processor disk1 urls opts
                   (arg_skip_existing a) (arg_resume a) in
        let out :=
          out ++ echoed r
              ++ [EchoRule;
                  EchoSummary (length urls) (success_count r) (failed_count r)
                              (duration E)] in
        let failed := failed_urls (self r) in
        let out :=
          if bool_decide (failed = []) then out
          else out ++ EchoFailedHeader :: failed_listing failed in
        let '(rep, out) :=
          match arg_report a with
          | None => (None, out)
          | Some path =>
              if report_io E then
                (Some (Report (report_time E) (arg_file a) (length urls)
                              (success_count r) (failed_count r) (duration E)
                              failed),
                 out ++ [EchoReportSaved path])
              else (None, out ++ [EchoReportError])
          end in
        MainResult (if Nat.eqb (failed_count r) 0 then 0%Z else 1%Z)
                   out (calls r) (disk r) rep
  end.

(* ===================================================================== *)
(** ** Vocabulary of the properties *)
(* ===================================================================== *)

(** The lines of the input file as the [for] loop of
    [read_urls_from_file] sees them. *)
Definition input_lines (text : string) : list string :=
  PyStr.file_lines (PyStr.universal_newlines text).

(** The lines of a file, stripped, each with its 1-based number. *)
Definition numbered (lines : list string) : list (nat * string) :=
  imap (fun i raw => (S i, PyStr.strip raw)) lines.

Definition nonblank (s : string) : bool := negb (PyStr.is_empty s).
Definition noncomment (s : string) : bool := negb (PyStr.startswith "#" s).

(** What the specification asks [read_urls] to return: the nonblank,
    non-comment lines that pass URL validation, in file order, each with
    its line number. *)
Definition spec_read_urls (lines : list string) : list (nat * string) :=
  List.filter (fun e => nonblank e.2 && noncomment e.2 && validate_url e.2)
              (numbered lines).

(** The lines that are skipped as invalid URLs: nonblank, no comment, and
    refused by the validation. *)
Definition spec_skipped_invalid (lines : list string) : list (nat * string) :=
  List.filter (fun e => nonblank e.2 && noncomment e.2 && negb (validate_url e.2))
              (numbered lines).

Definition is_interrupt_message (m : echo) : bool :=
  match m with EchoInterrupted => true | _ => false end.

(** The loop of [process_urls] was left through [break]: the message of
    the [except KeyboardInterrupt] handler was echoed. *)
Definition interrupted (r : run) : bool :=
  existsb is_interrupt_message (echoed r).

Definition is_skip_message (m : echo) : bool :=
  match m with EchoSkipProcessed _ _ _ => true | _ => false end.

(** The number of entries skipped as already processed. *)
Definition skipped (r : run) : nat :=
  length (List.filter is_skip_message (echoed r)).

(** The variables of [process_urls] after the first [n] entries of [urls]
    went through the loop. *)
Definition after_first (n : nat) (E : Env) (processor : BatchProcessor)
    (disk0 : option file) (urls : list (nat * string)) (opts : options)
    (skip_existing resume : bool) : run :=
  process_loop E opts skip_existing resume (length urls) 1 (take n urls)
    (Run 0 0 processor disk0 [] []).

(** The test at the head of the loop body: the entry is skipped. *)
Definition skips (resume : bool) (url : string) (r : run) : bool :=
  resume && bool_decide (url ∈ processed_urls (self r)).

(** The processor and the resume file with which [main] calls
    [process_urls], and that call. *)
Definition main_processor (a : args) (disk0 : option file) : BatchProcessor :=
  if arg_clear_resume a && bool_decide (disk0 <> None)
  then Processor ∅ [] else BatchProcessor_init disk0.

Definition main_disk (a : args) (disk0 : option file) : option file :=
  if arg_clear_resume a && bool_decide (disk0 <> None) then None else disk0.

Definition main_run (cfg : config) (E : Env) (a : args) (text : string)
    (disk0 : option file) : run :=
  process_urls E (main_processor a disk0) (main_disk a disk0)
    (spec_read_urls (input_lines text)) (main_options cfg a)
    (arg_skip_existing a) (arg_resume a).

(** The run when the collaborator is about to be called. *)
Definition announced (opts : options) (sk : bool) (total idx ln : nat)
    (url : string) (r : run) : run :=
  call url opts
    ((if sk then say [EchoCheckingExisting] else id)
       (say [EchoRule; EchoProcessing idx total ln; EchoUrl url] r)).

(* ===================================================================== *)
(** ** Scenarios *)
(* ===================================================================== *)

Definition opts0 : options := Options "out" "192" "mp3" false false false.

(** yt-dlp finishes the download. *)
Definition ok : fetch_event := FetchEvent None YdlDone.

(** yt-dlp reports a [DownloadError]. *)
Definition fails : fetch_event :=
  FetchEvent None (YdlDownloadError "ERROR: Video unavailable").

(** [download] raises [e] before it enters its [try] block. *)
Definition raises (e : exn) : fetch_event := FetchEvent (Some e) YdlDone.

(** Ctrl-C arrives while yt-dlp is at work inside the [try] block. *)
Definition interrupt_inside : fetch_event := FetchEvent None YdlKeyboardInterrupt.

(** An environment that plays [events], one per position of the list (a
    position beyond them succeeds), in which every write goes through. *)
Definition scripted (events : list fetch_event) : Env :=
  MkEnv (fun idx => nth (idx - 1) events ok)
        (fun _ => "2024-05-01T10:00:00") (fun _ => "2024-05-01T10:00:01")
        (fun _ => WriteOk) "0:00:05" "2024-05-01 10:00:06" true.

(** A processor with nothing loaded. *)
Definition fresh : BatchProcessor := Processor ∅ [].

Definition five_urls : list (nat * string) :=
  [(1, "http://a"); (2, "http://b"); (4, "https://c"); (5, "www.d");
   (7, "http://e")].

(** Five downloads: a success, a [DownloadError], an exception without
    a message, then Ctrl-C reaching the loop at the fourth. *)
Definition three_then_interrupt : Env :=
  scripted [ok; fails; raises (PyException ""); raises KeyboardInterrupt; ok].

Definition cfg0 : config := Config "downloads" "192" "mp3".

(** [batch.py urls.txt], with or without [--resume]. *)
Definition plain_args (resume : bool) : args :=
  Args "urls.txt" None None None false false false resume false None false.

(** A resume file left by a run in which "http://a" failed. *)
Definition earlier_failure : option file :=
  Some (Json (ResumeDoc (Some [])
                (Some [("http://a",
                        FailInfo 1 "Download failed" "2024-04-30T09:00:00")])
                (Some "2024-04-30T09:00:01"))).

(** One URL already processed, one new, in resume mode. *)
Definition one_processed : BatchProcessor := Processor {["http://a"]} [].

(** An input file in which the same URL is listed twice. *)
Definition twice_text : string := "http://a" +:+ String PyStr.LF "http://a".

(** An input file with a comment, a blank line and two lines that are no
    URLs. *)
Definition no_url_text : string :=
  "# my list" +:+ String PyStr.LF (String PyStr.LF "ftp://host/a")
  +:+ String PyStr.LF "youtube.com/watch".

(* ===================================================================== *)
(** * Properties *)
(* ===================================================================== *)

(** ** Strings and dictionaries *)

Lemma startswith_spec (p s : string) :
  PyStr.startswith p s = true <-> exists rest, s = p +:+ rest.
Proof.
  unfold PyStr.startswith. revert s.
  induction p as [|c p IH]; intros [|c' s]; simpl.
  - split; [exists EmptyString; reflexivity | reflexivity].
  - split; [exists (String c' s); reflexivity | reflexivity].
  - split; [discriminate | intros [rest H]; discriminate].
  - destruct (ascii_dec c c') as [->|Hne].
    + rewrite IH. split; intros [rest H]; exists rest.
      * subst s. reflexivity.
      * change (String c' s = String c' (p +:+ rest)) in H. congruence.
    + split; [discriminate | intros [rest H]].
      change (String c' s = String c (p +:+ rest)) in H. congruence.
Qed.

Lemma get_set_same {V} (k : string) (v : V) (d : PyDict.t V) :
  PyDict.get k (PyDict.set k v d) = Some v.
Proof.
  induction d as [|[k' v'] d IH]; simpl.
  - rewrite String.eqb_refl. reflexivity.
  - destruct (String.eqb k k') eqn:Hk; simpl; rewrite Hk; auto.
Qed.

Lemma get_set_other {V} (k k0 : string) (v : V) (d : PyDict.t V) :
  k0 <> k -> PyDict.get k0 (PyDict.set k v d) = PyDict.get k0 d.
Proof.
  intros Hne. induction d as [|[k' v'] d IH]; simpl.
  - destruct (String.eqb_spec k0 k); congruence.
  - destruct (String.eqb_spec k k') as [->|Hk]; simpl.
    + destruct (String.eqb_spec k0 k'); congruence.
    + destruct (String.eqb k0 k'); auto.
Qed.

Lemma mem_set {V} (k k0 : string) (v : V) (d : PyDict.t V) :
  PyDict.mem k0 d = true -> PyDict.mem k0 (PyDict.set k v d) = true.
Proof.
  unfold PyDict.mem. destruct (String.eqb_spec k0 k) as [->|Hne].
  - rewrite get_set_same. reflexivity.
  - rewrite get_set_other by assumption. auto.
Qed.

Lemma get_in {V} (k : string) (v : V) (d : PyDict.t V) :
  PyDict.get k d = Some v -> exists k', String.eqb k k' = true /\ In (k', v) d.
Proof.
  induction d as [|[k' v'] d IH]; simpl; [discriminate|].
  destruct (String.eqb k k') eqn:Hk.
  - intros [= ->]. exists k'. auto.
  - intros H. destruct (IH H) as (k1 & H1 & H2). exists k1. auto.
Qed.

(** ** validate_url *)

Lemma validate_url_spec (s : string) :
  validate_url s = true <->
  (exists rest, s = "http://" +:+ rest) \/
  (exists rest, s = "https://" +:+ rest) \/
  (exists rest, s = "www." +:+ rest).
Proof.
  unfold validate_url, PyStr.startswith_any, url_prefixes. simpl.
  rewrite !orb_true_iff, !startswith_spec.
  intuition discriminate.
Qed.

Lemma valid_not_blank_nor_comment (s : string) :
  validate_url s = true ->
  PyStr.is_empty s || PyStr.startswith "#" s = false.
Proof.
  rewrite validate_url_spec.
  intros [[r ->]|[[r ->]|[r ->]]]; reflexivity.
Qed.

(** ** read_urls_from_file *)

Lemma numbered_from (n : nat) (lines : list string) :
  imap ((fun i raw => (n + S i, PyStr.strip raw)) ∘ S) lines =
  imap (fun i raw => (S n + S i, PyStr.strip raw)) lines.
Proof. apply imap_ext. intros i x _. simpl. f_equal. lia. Qed.

(** The loop appends to [urls] the valid lines and to [out] one message
    per invalid line, both in the order of the lines. *)
Lemma read_loop_spec (lines : list string) :
  forall n urls out,
    read_loop (S n) lines urls out =
    (urls ++ List.filter
               (fun e => nonblank e.2 && noncomment e.2 && validate_url e.2)
               (imap (fun i raw => (n + S i, PyStr.strip raw)) lines),
     out ++ map (fun e => EchoInvalidUrl e.1 e.2)
             (List.filter
                (fun e => nonblank e.2 && noncomment e.2 && negb (validate_url e.2))
                (imap (fun i raw => (n + S i, PyStr.strip raw)) lines))).
Proof.
  induction lines as [|raw rest IH]; intros n urls out.
  - simpl. rewrite !app_nil_r. reflexivity.
  - cbn [read_loop imap]. rewrite numbered_from.
    cbn [List.filter snd fst]. unfold nonblank, noncomment.
    replace (n + 1) with (S n) by lia.
    destruct (PyStr.is_empty (PyStr.strip raw)); simpl; [apply IH|].
    destruct (PyStr.startswith "#" (PyStr.strip raw)); simpl; [apply IH|].
    destruct (validate_url (PyStr.strip raw)); simpl; rewrite IH;
      rewrite <- app_assoc; reflexivity.
Qed.

Lemma read_urls_from_file_text (text : string) :
  read_urls_from_file (FileText text) =
  (Done (spec_read_urls (input_lines text)),
   map (fun e => EchoInvalidUrl e.1 e.2) (spec_skipped_invalid (input_lines text))).
Proof.
  unfold read_urls_from_file. fold (input_lines text).
  rewrite (read_loop_spec (input_lines text) 0 [] []).
  reflexivity.
Qed.

Lemma numbered_In (lines : list string) (n : nat) (u : string) :
  In (n, u) (numbered lines) <->
  exists raw, lines !! (n - 1) = Some raw /\ 1 <= n /\ u = PyStr.strip raw.
Proof.
  unfold numbered. rewrite <- list_elem_of_In, elem_of_lookup_imap. split.
  - intros (i & raw & [= -> ->] & Hi). exists raw.
    replace (S i - 1) with i by lia. repeat split; [assumption | lia].
  - intros (raw & Hi & Hn & ->). exists (n - 1), raw. split; [|assumption].
    f_equal. lia.
Qed.

Lemma filter_sublist {A} (f : A -> bool) (l : list A) :
  List.filter f l `sublist_of` l.
Proof.
  induction l as [|x l IH]; simpl; [constructor|].
  destruct (f x); [apply sublist_skip | apply sublist_cons]; exact IH.
Qed.

(** C2. For every input text, [read_urls_from_file] returns exactly the
    pairs (line number, stripped line) of the nonblank, non-comment lines
    whose stripped text passes [validate_url], in the order of the file
    and with their 1-based line numbers, and echoes one "Skipping invalid
    URL" message, carrying the line number, for every nonblank,
    non-comment line that fails the validation. *)
Theorem read_urls_returns_valid_lines_in_order (text : string) :
  exists urls msgs,
    read_urls_from_file (FileText text) = (Done urls, msgs)
    /\ urls = spec_read_urls (input_lines text)
    /\ msgs = map (fun e => EchoInvalidUrl e.1 e.2)
                  (spec_skipped_invalid (input_lines text))
    /\ (forall n u,
          In (n, u) urls <->
          exists raw, input_lines text !! (n - 1) = Some raw /\ 1 <= n
                      /\ u = PyStr.strip raw /\ validate_url u = true)
    /\ urls `sublist_of` numbered (input_lines text)
    /\ (forall n u,
          In (EchoInvalidUrl n u) msgs <->
          exists raw, input_lines text !! (n - 1) = Some raw /\ 1 <= n
                      /\ u = PyStr.strip raw /\ nonblank u = true
                      /\ noncomment u = true /\ validate_url u = false).
Proof.
  eexists _, _. split; [apply read_urls_from_file_text|].
  split; [reflexivity|]. split; [reflexivity|].
  split; [|split].
  - intros n u. unfold spec_read_urls. rewrite filter_In, numbered_In. simpl.
    split.
    + intros [(raw & H1 & H2 & H3) H4]. exists raw.
      rewrite !andb_true_iff in H4. tauto.
    + intros (raw & H1 & H2 & H3 & H4). split; [eauto|].
      pose proof (valid_not_blank_nor_comment u H4) as Hb.
      apply orb_false_iff in Hb as [Hb1 Hb2].
      unfold nonblank, noncomment. rewrite Hb1, Hb2, H4. reflexivity.
  - apply filter_sublist.
  - intros n u. rewrite in_map_iff. unfold spec_skipped_invalid. split.
    + intros ([n' u'] & [= -> ->] & Hin).
      apply filter_In in Hin as [Hin Hf]. apply numbered_In in Hin.
      destruct Hin as (raw & H1 & H2 & H3). exists raw. simpl in Hf.
      rewrite !andb_true_iff, negb_true_iff in Hf. tauto.
    + intros (raw & H1 & H2 & H3 & H4 & H5 & H6). exists (n, u).
      split; [reflexivity|]. apply filter_In. split.
      * apply numbered_In. eauto.
      * simpl. rewrite H4, H5, H6. reflexivity.
Qed.

(** ** The body of the loop *)

Lemma interrupted_say (msgs : list echo) (r : run) :
  interrupted (say msgs r) = interrupted r || existsb is_interrupt_message msgs.
Proof. unfold interrupted. simpl. apply existsb_app. Qed.

Lemma skipped_say (msgs : list echo) (r : run) :
  skipped (say msgs r) = skipped r + length (List.filter is_skip_message msgs).
Proof. unfold skipped. simpl. rewrite List.filter_app, length_app. reflexivity. Qed.

(** The two shapes of the body: the entry is skipped, or the collaborator
    is called and its outcome decides. *)
Lemma entry_skipped E opts sk resume total idx ln url r :
  skips resume url r = true ->
  process_entry E opts sk resume total idx (ln, url) r =
  (Next, count_success (say [EchoSkipProcessed idx total url] r)).
Proof. unfold skips, process_entry. intros ->. reflexivity. Qed.

Lemma entry_fetched E opts sk resume total idx ln url r :
  skips resume url r = false ->
  process_entry E opts sk resume total idx (ln, url) r =
  let r1 := announced opts sk total idx ln url r in
  match download_audio (fetch E idx) url opts with
  | Return true =>
      (Next, save_if resume E idx
               (say [EchoDownloadOk] (add_processed url (count_success r1))))
  | Return false =>
      (Next, save_if resume E idx
               (say [EchoDownloadFailed]
                  (set_failed url
                     (FailInfo ln "Download failed" (failure_time E idx))
                     (count_failed r1))))
  | Raise KeyboardInterrupt =>
      (Break, if resume
              then say [EchoProgressSaved idx] (save E idx (say [EchoInterrupted] r1))
              else say [EchoInterrupted] r1)
  | Raise (PyException msg) =>
      (Next, save_if resume E idx
               (say [EchoUnexpected msg]
                  (set_failed url (FailInfo ln msg (failure_time E idx))
                     (count_failed r1))))
  end.
Proof.
  unfold skips, process_entry, announced. intros ->.
  destruct sk; reflexivity.
Qed.

(** Case analysis on one execution of the body. *)
Ltac entry_cases E opts sk resume total idx ln url r :=
  destruct (skips resume url r) eqn:?Hskip;
  [ rewrite (entry_skipped E opts sk resume total idx ln url r) by assumption
  | rewrite (entry_fetched E opts sk resume total idx ln url r) by assumption;
    cbv zeta;
    destruct (download_audio (fetch E idx) url opts) as [[|]|[|?msg]] eqn:?Hdl ].

Ltac run_simpl :=
  unfold save_if, save, say, call, count_success, count_failed,
    add_processed, set_failed, announced, id in *; simpl in *.

(** When the loop goes on, exactly one counter went up by one, the entry
    was either fetched or skipped, and no interrupt was echoed. *)
Lemma entry_next E opts sk resume total idx e r r' :
  process_entry E opts sk resume total idx e r = (Next, r') ->
  success_count r' + failed_count r' = S (success_count r + failed_count r)
  /\ length (calls r') + skipped r' = S (length (calls r) + skipped r)
  /\ interrupted r' = interrupted r.
Proof.
  destruct e as [ln url]. destruct r as [s f p d ec cs].
  entry_cases E opts sk resume total idx ln url (Run s f p d ec cs);
    intros [= <-]; destruct resume, sk; unfold skipped, interrupted;
    run_simpl;
    rewrite ?List.filter_app, ?existsb_app, ?length_app; simpl;
    rewrite ?orb_false_r; (split; [lia | split; [lia | reflexivity]]).
Qed.

(** When the loop is left, the interrupt was echoed. *)
Lemma entry_break E opts sk resume total idx e r r' :
  process_entry E opts sk resume total idx e r = (Break, r') ->
  interrupted r' = true.
Proof.
  destruct e as [ln url]. destruct r as [s f p d ec cs].
  entry_cases E opts sk resume total idx ln url (Run s f p d ec cs);
    intros [= <-]; destruct resume, sk; unfold interrupted; run_simpl;
    rewrite ?existsb_app; simpl; rewrite ?orb_true_r; reflexivity.
Qed.

(** The body never removes a key of [failed_urls] nor an element of
    [processed_urls]. *)
Lemma entry_keeps E opts sk resume total idx e r :
  forall fl r', process_entry E opts sk resume total idx e r = (fl, r') ->
  (forall u, PyDict.mem u (failed_urls (self r)) = true ->
             PyDict.mem u (failed_urls (self r')) = true)
  /\ processed_urls (self r) ⊆ processed_urls (self r')
  /\ failed_count r <= failed_count r'
  /\ success_count r <= success_count r'.
Proof.
  intros fl r'. destruct e as [ln url]. destruct r as [s f p d ec cs].
  entry_cases E opts sk resume total idx ln url (Run s f p d ec cs);
    intros [= <- <-]; destruct resume, sk; run_simpl;
    (split; [intros u Hu; auto using mem_set
            | split; [set_solver | split; lia]]).
Qed.

(** ** The loop *)

Section Loop.
Variables (E : Env) (opts : options) (sk resume : bool) (total : nat).

#[local] Abbreviation loop := (process_loop E opts sk resume total).
#[local] Abbreviation body := (process_entry E opts sk resume total).

Lemma loop_cons idx e rest r :
  loop idx (e :: rest) r =
  match body idx e r with
  | (Next, r') => loop (S idx) rest r'
  | (Break, r') => r'
  end.
Proof. reflexivity. Qed.

(** A loop that was not interrupted went through all its entries. *)
Lemma loop_app pre : forall idx post r,
  interrupted (loop idx pre r) = false ->
  loop idx (pre ++ post) r = loop (idx + length pre) post (loop idx pre r).
Proof.
  induction pre as [|e pre IH]; intros idx post r Hni.
  - simpl. rewrite Nat.add_0_r. reflexivity.
  - rewrite <- app_comm_cons, !loop_cons in *.
    destruct (body idx e r) as [[|] r'] eqn:He.
    + rewrite IH by assumption. simpl. f_equal. lia.
    + apply entry_break in He. congruence.
Qed.

Lemma loop_counts urls : forall idx r,
  interrupted (loop idx urls r) = false ->
  success_count (loop idx urls r) + failed_count (loop idx urls r)
    = success_count r + failed_count r + length urls
  /\ length (calls (loop idx urls r)) + skipped (loop idx urls r)
    = length (calls r) + skipped r + length urls
  /\ interrupted r = false.
Proof.
  induction urls as [|e urls IH]; intros idx r Hni.
  - simpl in *. repeat split; [lia | lia | assumption].
  - rewrite loop_cons in *.
    destruct (body idx e r) as [[|] r'] eqn:He.
    + destruct (IH _ _ Hni) as (H1 & H2 & H3).
      destruct (entry_next _ _ _ _ _ _ _ _ _ He) as (G1 & G2 & G3).
      simpl. repeat split; [lia | lia | congruence].
    + apply entry_break in He. congruence.
Qed.

Lemma loop_keeps urls : forall idx r,
  (forall u, PyDict.mem u (failed_urls (self r)) = true ->
             PyDict.mem u (failed_urls (self (loop idx urls r))) = true)
  /\ processed_urls (self r) ⊆ processed_urls (self (loop idx urls r))
  /\ failed_count r <= failed_count (loop idx urls r)
  /\ success_count r <= success_count (loop idx urls r).
Proof.
  induction urls as [|e urls IH]; intros idx r.
  - simpl. repeat split; auto.
  - rewrite loop_cons.
    destruct (body idx e r) as [fl r'] eqn:He.
    destruct (entry_keeps _ _ _ _ _ _ _ _ _ _ He) as (G1 & G2 & G3 & G4).
    destruct fl; [|repeat split; assumption].
    destruct (IH (S idx) r') as (H1 & H2 & H3 & H4).
    repeat split; [auto | etransitivity; eassumption | lia | lia].
Qed.

(** Whatever the first entries do, the loop over the whole list ends in a
    state that the loop reaches from the state they leave. *)
Lemma loop_from_prefix pre : forall idx post r,
  exists idx' rest,
    loop idx (pre ++ post) r = loop idx' rest (loop idx pre r).
Proof.
  induction pre as [|e pre IH]; intros idx post r.
  - exists idx, post. reflexivity.
  - rewrite <- app_comm_cons, !loop_cons.
    destruct (body idx e r) as [[|] r'].
    + apply IH.
    + exists idx, []. reflexivity.
Qed.

End Loop.

(** Without resume mode the resume file is never written. *)
Lemma loop_disk_without_resume E opts sk total urls : forall idx r,
  disk (process_loop E opts sk false total idx urls r) = disk r.
Proof.
  induction urls as [|[ln url] urls IH]; intros idx r; [reflexivity|].
  rewrite loop_cons. destruct r as [s f p d ec cs].
  entry_cases E opts sk false total idx ln url (Run s f p d ec cs);
    try rewrite IH; destruct sk; reflexivity.
Qed.

(** In resume mode, a list whose URLs are all marked processed is gone
    through without a call, a write or a change of the processor; every
    entry is counted as a success. *)
Lemma loop_all_processed E opts sk total urls : forall idx r,
  Forall (fun e => e.2 ∈ processed_urls (self r)) urls ->
  calls (process_loop E opts sk true total idx urls r) = calls r
  /\ success_count (process_loop E opts sk true total idx urls r)
     = success_count r + length urls
  /\ failed_count (process_loop E opts sk true total idx urls r) = failed_count r
  /\ self (process_loop E opts sk true total idx urls r) = self r
  /\ disk (process_loop E opts sk true total idx urls r) = disk r
  /\ skipped (process_loop E opts sk true total idx urls r)
     = skipped r + length urls.
Proof.
  induction urls as [|[ln url] urls IH]; intros idx r Hall.
  - simpl. repeat split; lia.
  - apply Forall_cons in Hall as [Hu Hall]. simpl in Hu.
    rewrite loop_cons, entry_skipped
      by (unfold skips; rewrite bool_decide_eq_true_2; auto).
    destruct (IH (S idx)
                (count_success (say [EchoSkipProcessed idx total url] r)))
      as (H1 & H2 & H3 & H4 & H5 & H6); [exact Hall|].
    rewrite H1, H2, H3, H4, H5, H6. unfold skipped. destruct r. simpl.
    rewrite List.filter_app, length_app. simpl.
    repeat split; lia.
Qed.

(** ** process_urls at one position of the list *)

(** When the first [k] entries did not end the loop, [process_urls] is
    the body at entry [k] (position [S k]) followed, unless the body
    breaks, by the loop over the entries behind it. *)
Lemma process_urls_at E p d urls opts sk resume k e :
  urls !! k = Some e ->
  interrupted (after_first k E p d urls opts sk resume) = false ->
  process_urls E p d urls opts sk resume =
  match process_entry E opts sk resume (length urls) (S k) e
          (after_first k E p d urls opts sk resume) with
  | (Next, r1) =>
      process_loop E opts sk resume (length urls) (S (S k)) (drop (S k) urls) r1
  | (Break, r1) => r1
  end.
Proof.
  intros Hk Hni. unfold process_urls, after_first in *.
  pose proof (lookup_lt_Some _ _ _ Hk) as Hlt.
  pose proof (loop_app E opts sk resume (length urls) (take k urls) 1
                (e :: drop (S k) urls) _ Hni) as Happ.
  rewrite (take_drop_middle urls k e Hk) in Happ. rewrite Happ.
  rewrite length_take_le by lia. reflexivity.
Qed.

(** A failed download, reported by [return False] or by an exception, at
    an entry that the loop reaches and does not skip. *)
Lemma failure_step E p d urls opts sk resume k ln url err :
  urls !! k = Some (ln, url) ->
  interrupted (after_first k E p d urls opts sk resume) = false ->
  skips resume url (after_first k E p d urls opts sk resume) = false ->
  (download_audio (fetch E (S k)) url opts = Return false
   /\ err = "Download failed")
  \/ download_audio (fetch E (S k)) url opts = Raise (PyException err) ->
  exists r1,
    process_entry E opts sk resume (length urls) (S k) (ln, url)
      (after_first k E p d urls opts sk resume) = (Next, r1)
    /\ PyDict.get url (failed_urls (self r1))
       = Some (FailInfo ln err (failure_time E (S k)))
    /\ failed_count r1 = S (failed_count (after_first k E p d urls opts sk resume))
    /\ success_count r1 = success_count (after_first k E p d urls opts sk resume)
    /\ process_urls E p d urls opts sk resume
       = process_loop E opts sk resume (length urls) (S (S k))
           (drop (S k) urls) r1.
Proof.
  intros Hk Hni Hskip Hdl.
  rewrite (process_urls_at E p d urls opts sk resume k (ln, url) Hk Hni).
  rewrite (entry_fetched _ _ _ _ _ _ _ _ _ Hskip). cbv zeta.
  destruct (after_first k E p d urls opts sk resume) as [s f q dk ec cs].
  destruct Hdl as [[-> ->] | ->]; eexists; (split; [reflexivity|]);
    destruct resume, sk; run_simpl; rewrite get_set_same; auto.
Qed.

(** ** Resume state on disk *)

Lemma load_after_save now self0 disk0 q :
  load_resume_data q (save_resume_data now WriteOk self0 disk0) = self0.
Proof.
  destruct self0 as [ps fs]. unfold save_resume_data, load_resume_data. simpl.
  rewrite list_to_set_elements_L. reflexivity.
Qed.

(** ** Failures and interrupts *)

(** C3 (amended). For every entry that the loop reaches and does not
    skip, and on which the collaborator returns failure or raises an
    [Exception] (an interrupt is not one): [process_urls] stores under the
    URL the line number of the entry, the error text, which is the
    literal "Download failed" after a failure and [str(e)] after an
    exception, and the time; it adds one to [failed_count]; and it goes on
    with the entries behind it. The URL is still a key of the failed map
    when [process_urls] returns, and the returned [failed_count] includes
    the failure. *)
Theorem failed_download_is_recorded_and_loop_goes_on
    E p d urls opts sk resume k ln url err :
  urls !! k = Some (ln, url) ->
  interrupted (after_first k E p d urls opts sk resume) = false ->
  skips resume url (after_first k E p d urls opts sk resume) = false ->
  (download_audio (fetch E (S k)) url opts = Return false
   /\ err = "Download failed")
  \/ download_audio (fetch E (S k)) url opts = Raise (PyException err) ->
  exists r1,
    process_entry E opts sk resume (length urls) (S k) (ln, url)
      (after_first k E p d urls opts sk resume) = (Next, r1)
    /\ PyDict.get url (failed_urls (self r1))
       = Some (FailInfo ln err (failure_time E (S k)))
    /\ failed_count r1 = S (failed_count (after_first k E p d urls opts sk resume))
    /\ process_urls E p d urls opts sk resume
       = process_loop E opts sk resume (length urls) (S (S k))
           (drop (S k) urls) r1
    /\ PyDict.mem url (failed_urls (self (process_urls E p d urls opts sk resume)))
       = true
    /\ S (failed_count (after_first k E p d urls opts sk resume))
       <= failed_count (process_urls E p d urls opts sk resume).
Proof.
  intros Hk Hni Hskip Hdl.
  destruct (failure_step E p d urls opts sk resume k ln url err Hk Hni Hskip Hdl)
    as (r1 & H1 & H2 & H3 & H4 & H5).
  exists r1. repeat split; try assumption.
  - rewrite H5.
    apply (loop_keeps E opts sk resume (length urls) (drop (S k) urls)).
    unfold PyDict.mem. rewrite H2. reflexivity.
  - rewrite H5, <- H3.
    apply (loop_keeps E opts sk resume (length urls) (drop (S k) urls)).
Qed.

Lemma failed_download_witness :
  exists r1,
    process_entry three_then_interrupt opts0 false true 5 2 (2, "http://b")
      (after_first 1 three_then_interrupt fresh None five_urls opts0 false true)
    = (Next, r1)
    /\ PyDict.get "http://b" (failed_urls (self r1))
       = Some (FailInfo 2 "Download failed" "2024-05-01T10:00:00")
    /\ failed_count r1 = 1
    /\ process_urls three_then_interrupt fresh None five_urls opts0 false true
       = process_loop three_then_interrupt opts0 false true 5 3
           (drop 2 five_urls) r1
    /\ PyDict.mem "http://b"
         (failed_urls
            (self (process_urls three_then_interrupt fresh None five_urls
                     opts0 false true))) = true
    /\ 1 <= failed_count
              (process_urls three_then_interrupt fresh None five_urls opts0
                 false true).
Proof.
  apply (failed_download_is_recorded_and_loop_goes_on
           three_then_interrupt fresh None five_urls opts0 false true
           1 2 "http://b" "Download failed");
    [reflexivity | reflexivity | reflexivity | left; split; reflexivity].
Defined.

(** C3 as stated fails twice. An exception whose [str(e)] is empty is
    recorded with an empty error text (the third entry below); and when
    the collaborator raises [KeyboardInterrupt] (the fourth entry), nothing
    is recorded for that URL, [failed_count] stays, and the fifth entry is
    never fetched. *)
Lemma recorded_error_text_can_be_empty :
  download_audio (fetch three_then_interrupt 3) "https://c" opts0
    = Raise (PyException "")
  /\ PyDict.get "https://c"
       (failed_urls
          (self (process_urls three_then_interrupt fresh None five_urls opts0
                   false true)))
     = Some (FailInfo 4 "" "2024-05-01T10:00:00")
  /\ download_audio (fetch three_then_interrupt 4) "www.d" opts0
     = Raise KeyboardInterrupt
  /\ PyDict.get "www.d"
       (failed_urls
          (self (process_urls three_then_interrupt fresh None five_urls opts0
                   false true)))
     = None
  /\ failed_count
       (process_urls three_then_interrupt fresh None five_urls opts0 false true)
     = 2
  /\ map fst
       (calls
          (process_urls three_then_interrupt fresh None five_urls opts0 false
             true))
     = ["http://a"; "http://b"; "https://c"; "www.d"].
Proof. repeat split; vm_compute; reflexivity. Qed.

(** C10 (amended). A [KeyboardInterrupt] raised while [download] is
    inside its [try] block, where yt-dlp is at work, is caught there:
    [download] returns [False]. The loop of [process_urls] then treats
    the entry like any failed download: it records the URL with
    "Download failed", adds one to [failed_count], echoes no interrupt,
    and goes on with the entries behind it. A [KeyboardInterrupt] raised
    inside [download] before its [try] block ([output_dir.mkdir], building
    the options) is not caught by [download]: it comes out of the call,
    the loop echoes the interrupt and ends, and no failure is recorded
    for the URL. *)
Theorem interrupt_in_download_is_caught_only_inside_try
    E p d urls opts sk resume k ln url :
  urls !! k = Some (ln, url) ->
  interrupted (after_first k E p d urls opts sk resume) = false ->
  skips resume url (after_first k E p d urls opts sk resume) = false ->
  (prologue (fetch E (S k)) = None ->
   body (fetch E (S k)) = YdlKeyboardInterrupt ->
   download (fetch E (S k)) url opts = Return false
   /\ exists r1,
        process_entry E opts sk resume (length urls) (S k) (ln, url)
          (after_first k E p d urls opts sk resume) = (Next, r1)
        /\ PyDict.get url (failed_urls (self r1))
           = Some (FailInfo ln "Download failed" (failure_time E (S k)))
        /\ failed_count r1
           = S (failed_count (after_first k E p d urls opts sk resume))
        /\ interrupted r1 = false
        /\ process_urls E p d urls opts sk resume
           = process_loop E opts sk resume (length urls) (S (S k))
               (drop (S k) urls) r1)
  /\ (prologue (fetch E (S k)) = Some KeyboardInterrupt ->
      download (fetch E (S k)) url opts = Raise KeyboardInterrupt
      /\ interrupted (process_urls E p d urls opts sk resume) = true
      /\ calls (process_urls E p d urls opts sk resume)
         = calls (after_first k E p d urls opts sk resume) ++ [(url, opts)]
      /\ failed_urls (self (process_urls E p d urls opts sk resume))
         = failed_urls (self (after_first k E p d urls opts sk resume))
      /\ failed_count (process_urls E p d urls opts sk resume)
         = failed_count (after_first k E p d urls opts sk resume)
      /\ success_count (process_urls E p d urls opts sk resume)
         = success_count (after_first k E p d urls opts sk resume)).
Proof.
  intros Hk Hni Hskip. split.
  - intros Hpro Hbody.
    assert (Hdl : download_audio (fetch E (S k)) url opts = Return false).
    { unfold download_audio, download. rewrite Hpro, Hbody. reflexivity. }
    split; [exact Hdl|].
    destruct (failure_step E p d urls opts sk resume k ln url "Download failed"
                Hk Hni Hskip (or_introl (conj Hdl eq_refl)))
      as (r1 & H1 & H2 & H3 & H4 & H5).
    exists r1. repeat split; try assumption.
    apply entry_next in H1 as (_ & _ & ->). exact Hni.
  - intros Hpro.
    assert (Hdl : download_audio (fetch E (S k)) url opts
                  = Raise KeyboardInterrupt).
    { unfold download_audio, download. rewrite Hpro. reflexivity. }
    split; [exact Hdl|].
    rewrite (process_urls_at E p d urls opts sk resume k (ln, url) Hk Hni).
    rewrite (entry_fetched _ _ _ _ _ _ _ _ _ Hskip). cbv zeta. rewrite Hdl.
    destruct (after_first k E p d urls opts sk resume) as [s f q dk ec cs].
    destruct resume, sk; unfold interrupted; run_simpl;
      rewrite ?existsb_app; simpl; rewrite ?orb_true_r;
      repeat split; reflexivity.
Qed.

Lemma interrupt_inside_download_witness :
  download (fetch (scripted [ok; interrupt_inside; ok]) 2) "http://b" opts0
    = Return false
  /\ exists r1,
       process_entry (scripted [ok; interrupt_inside; ok]) opts0 false false
         5 2 (2, "http://b")
         (after_first 1 (scripted [ok; interrupt_inside; ok]) fresh None
            five_urls opts0 false false) = (Next, r1)
       /\ PyDict.get "http://b" (failed_urls (self r1))
          = Some (FailInfo 2 "Download failed" "2024-05-01T10:00:00")
       /\ failed_count r1 = 1
       /\ interrupted r1 = false
       /\ process_urls (scripted [ok; interrupt_inside; ok]) fresh None
            five_urls opts0 false false
          = process_loop (scripted [ok; interrupt_inside; ok]) opts0 false
              false 5 3 (drop 2 five_urls) r1.
Proof.
  apply (proj1 (interrupt_in_download_is_caught_only_inside_try
                  (scripted [ok; interrupt_inside; ok]) fresh None five_urls
                  opts0 false false 1 2 "http://b"
                  eq_refl eq_refl eq_refl));
    reflexivity.
Defined.

(** C10 as stated fails for an interrupt that is raised inside [download]
    before its [try] block: it comes out of the call at the second entry,
    the loop ends there with the interrupt echoed, the third entry is not
    fetched, and nothing is recorded as failed. *)
Lemma interrupt_before_try_ends_the_loop :
  download (fetch (scripted [ok; raises KeyboardInterrupt; ok]) 2)
    "http://b" opts0 = Raise KeyboardInterrupt
  /\ interrupted
       (process_urls (scripted [ok; raises KeyboardInterrupt; ok]) fresh None
          [(1, "http://a"); (2, "http://b"); (3, "http://c")] opts0 false
          false) = true
  /\ map fst
       (calls
          (process_urls (scripted [ok; raises KeyboardInterrupt; ok]) fresh
             None [(1, "http://a"); (2, "http://b"); (3, "http://c")] opts0
             false false))
     = ["http://a"; "http://b"]
  /\ failed_urls
       (self
          (process_urls (scripted [ok; raises KeyboardInterrupt; ok]) fresh
             None [(1, "http://a"); (2, "http://b"); (3, "http://c")] opts0
             false false)) = []
  /\ failed_count
       (process_urls (scripted [ok; raises KeyboardInterrupt; ok]) fresh None
          [(1, "http://a"); (2, "http://b"); (3, "http://c")] opts0 false
          false) = 0.
Proof. repeat split; vm_compute; reflexivity. Qed.

(** C4 (amended). When a [KeyboardInterrupt] comes out of the call of
    [download_audio] at an entry that the loop reaches, the loop ends at
    once: counters and processor are those of the entries before it, the
    entries behind it are not fetched, and [process_urls] returns. In
    resume mode the state is then saved and the position of the
    interrupted entry is echoed ("continue from URL idx"); when the write
    goes through, the resume file holds exactly the state left by the
    entries before the interrupted one. Without resume mode nothing is
    written and no position is echoed. *)
Theorem propagated_interrupt_ends_the_loop
    E p d urls opts sk resume k ln url :
  urls !! k = Some (ln, url) ->
  interrupted (after_first k E p d urls opts sk resume) = false ->
  skips resume url (after_first k E p d urls opts sk resume) = false ->
  download_audio (fetch E (S k)) url opts = Raise KeyboardInterrupt ->
  success_count (process_urls E p d urls opts sk resume)
    = success_count (after_first k E p d urls opts sk resume)
  /\ failed_count (process_urls E p d urls opts sk resume)
     = failed_count (after_first k E p d urls opts sk resume)
  /\ self (process_urls E p d urls opts sk resume)
     = self (after_first k E p d urls opts sk resume)
  /\ calls (process_urls E p d urls opts sk resume)
     = calls (after_first k E p d urls opts sk resume) ++ [(url, opts)]
  /\ echoed (process_urls E p d urls opts sk resume)
     = echoed (after_first k E p d urls opts sk resume)
       ++ [EchoRule; EchoProcessing (S k) (length urls) ln; EchoUrl url]
       ++ (if sk then [EchoCheckingExisting] else [])
       ++ EchoInterrupted :: (if resume then [EchoProgressSaved (S k)] else [])
  /\ disk (process_urls E p d urls opts sk resume)
     = (if resume
        then save_resume_data (save_time E (S k)) (save_io E (S k))
               (self (after_first k E p d urls opts sk resume))
               (disk (after_first k E p d urls opts sk resume))
        else d)
  /\ (resume = true -> save_io E (S k) = WriteOk ->
      BatchProcessor_init (disk (process_urls E p d urls opts sk resume))
      = self (after_first k E p d urls opts sk resume)).
Proof.
  intros Hk Hni Hskip Hdl.
  rewrite (process_urls_at E p d urls opts sk resume k (ln, url) Hk Hni).
  rewrite (entry_fetched _ _ _ _ _ _ _ _ _ Hskip). cbv zeta. rewrite Hdl.
  assert (Hd : resume = false ->
               disk (after_first k E p d urls opts sk resume) = d).
  { intros ->. unfold after_first. apply loop_disk_without_resume. }
  destruct (after_first k E p d urls opts sk resume) as [s f q dk ec cs].
  destruct resume, sk; run_simpl; rewrite <- ?app_assoc; simpl;
    repeat split; auto; try discriminate;
    intros _ ->; apply load_after_save.
Qed.

Lemma propagated_interrupt_witness :
  success_count
    (process_urls three_then_interrupt fresh None five_urls opts0 false true)
  = 1
  /\ failed_count
       (process_urls three_then_interrupt fresh None five_urls opts0 false true)
     = 2
  /\ BatchProcessor_init
       (disk (process_urls three_then_interrupt fresh None five_urls opts0
                false true))
     = self (after_first 3 three_then_interrupt fresh None five_urls opts0
               false true).
Proof.
  pose proof (propagated_interrupt_ends_the_loop
                three_then_interrupt fresh None five_urls opts0 false true
                3 5 "www.d" eq_refl eq_refl eq_refl eq_refl)
    as (H1 & H2 & _ & _ & _ & _ & H7).
  split; [exact H1|]. split; [exact H2|]. exact (H7 eq_refl eq_refl).
Defined.

(** C4 as stated fails without resume mode: after the interrupt at the
    fourth of five entries, the processor holds the outcomes of the first
    three, the resume file still does not exist, and the last message is
    the interrupt itself, with no word on the entries left. *)
Lemma interrupt_without_resume_saves_nothing :
  download_audio (fetch three_then_interrupt 4) "www.d" opts0
    = Raise KeyboardInterrupt
  /\ elements
       (processed_urls
          (self (process_urls three_then_interrupt fresh None five_urls opts0
                   false false)))
     = ["http://a"]
  /\ PyDict.keys
       (failed_urls
          (self (process_urls three_then_interrupt fresh None five_urls opts0
                   false false)))
     = ["http://b"; "https://c"]
  /\ disk (process_urls three_then_interrupt fresh None five_urls opts0
             false false)
     = None
  /\ last (echoed (process_urls three_then_interrupt fresh None five_urls
                     opts0 false false))
     = Some EchoInterrupted.
Proof. repeat split; vm_compute; reflexivity. Qed.

(** The state that the fourth of five entries leaves on disk when it is
    interrupted in resume mode: the three outcomes before it. *)
Example interrupt_after_three_of_five :
  disk (process_urls three_then_interrupt fresh None five_urls opts0 false true)
  = Some (Json (ResumeDoc
                  (Some ["http://a"])
                  (Some [("http://b",
                          FailInfo 2 "Download failed" "2024-05-01T10:00:00");
                         ("https://c", FailInfo 4 "" "2024-05-01T10:00:00")])
                  (Some "2024-05-01T10:00:01"))).
Proof. vm_compute. reflexivity. Qed.

(** ** Counters *)

(** C1 (amended). After a run of [process_urls] that was not interrupted,
    [success_count + failed_count] is the number of all entries of the
    list: the entries skipped as already processed in resume mode are
    counted (as successes) too, so the sum is the number of URLs fetched
    plus the number of entries skipped. *)
Theorem counters_add_up_to_all_entries E p d urls opts sk resume :
  interrupted (process_urls E p d urls opts sk resume) = false ->
  success_count (process_urls E p d urls opts sk resume)
  + failed_count (process_urls E p d urls opts sk resume) = length urls
  /\ length (calls (process_urls E p d urls opts sk resume))
     + skipped (process_urls E p d urls opts sk resume) = length urls.
Proof.
  intros Hni. unfold process_urls in *.
  destruct (loop_counts E opts sk resume (length urls) urls 1 _ Hni)
    as (H1 & H2 & _).
  simpl in H1, H2. split; assumption.
Qed.

Lemma counters_add_up_witness :
  success_count
    (process_urls (scripted [ok; fails]) one_processed None
       [(1, "http://a"); (2, "http://b")] opts0 false true)
  + failed_count
      (process_urls (scripted [ok; fails]) one_processed None
         [(1, "http://a"); (2, "http://b")] opts0 false true) = 2
  /\ length
       (calls
          (process_urls (scripted [ok; fails]) one_processed None
             [(1, "http://a"); (2, "http://b")] opts0 false true))
     + skipped
         (process_urls (scripted [ok; fails]) one_processed None
            [(1, "http://a"); (2, "http://b")] opts0 false true) = 2.
Proof.
  apply (counters_add_up_to_all_entries (scripted [ok; fails]) one_processed
           None [(1, "http://a"); (2, "http://b")] opts0 false true).
  reflexivity.
Defined.

(** C1 as stated fails in resume mode: of two entries, one is skipped as
    already processed and one is fetched; the run is complete, the
    counters add up to 2, and 1 URL was attempted. *)
Lemma skipped_entries_are_counted :
  interrupted
    (process_urls (scripted [ok; fails]) one_processed None
       [(1, "http://a"); (2, "http://b")] opts0 false true) = false
  /\ success_count
       (process_urls (scripted [ok; fails]) one_processed None
          [(1, "http://a"); (2, "http://b")] opts0 false true)
     + failed_count
         (process_urls (scripted [ok; fails]) one_processed None
            [(1, "http://a"); (2, "http://b")] opts0 false true) = 2
  /\ map fst
       (calls
          (process_urls (scripted [ok; fails]) one_processed None
             [(1, "http://a"); (2, "http://b")] opts0 false true))
     = ["http://b"]
  /\ skipped
       (process_urls (scripted [ok; fails]) one_processed None
          [(1, "http://a"); (2, "http://b")] opts0 false true) = 1.
Proof. repeat split; vm_compute; reflexivity. Qed.

(** ** Resume mode *)

(** An entry after which the loop goes on with [failed_count] unchanged
    was counted as a success: its URL is marked processed, and the failed
    map is what it was. *)
Lemma entry_success E opts sk resume total idx ln url r r' :
  process_entry E opts sk resume total idx (ln, url) r = (Next, r') ->
  failed_count r' = failed_count r ->
  url ∈ processed_urls (self r')
  /\ failed_urls (self r') = failed_urls (self r)
  /\ success_count r' = S (success_count r).
Proof.
  destruct r as [s f p d ec cs].
  entry_cases E opts sk resume total idx ln url (Run s f p d ec cs);
    intros [= <-]; destruct resume, sk; run_simpl; intros Hf;
    try lia; try discriminate;
    (split; [|split; reflexivity]).
  all: try (apply bool_decide_eq_true in Hskip; exact Hskip).
  all: apply elem_of_union_l, elem_of_singleton; reflexivity.
Qed.

Lemma loop_successes_processed E opts sk resume total urls : forall idx r,
  interrupted (process_loop E opts sk resume total idx urls r) = false ->
  failed_count (process_loop E opts sk resume total idx urls r) = failed_count r ->
  Forall (fun e => e.2 ∈ processed_urls
                         (self (process_loop E opts sk resume total idx urls r)))
         urls.
Proof.
  induction urls as [|[ln url] urls IH]; intros idx r Hni Hf; [constructor|].
  rewrite loop_cons in *.
  destruct (process_entry E opts sk resume total idx (ln, url) r)
    as [[|] r'] eqn:He; [|apply entry_break in He; congruence].
  destruct (entry_keeps _ _ _ _ _ _ _ _ _ _ He) as (_ & _ & G3 & _).
  destruct (loop_keeps E opts sk resume total urls (S idx) r')
    as (_ & K2 & K3 & _).
  assert (Hf' : failed_count r' = failed_count r) by lia.
  constructor.
  - simpl. apply K2. eapply entry_success; eassumption.
  - apply IH; [assumption | lia].
Qed.

(** In resume mode, with every write going through, the resume file and
    the processor stay in step. *)
Lemma loop_in_step E opts sk total urls :
  (forall i, save_io E i = WriteOk) ->
  forall idx r,
    BatchProcessor_init (disk r) = self r ->
    BatchProcessor_init (disk (process_loop E opts sk true total idx urls r))
    = self (process_loop E opts sk true total idx urls r).
Proof.
  intros Hw. induction urls as [|[ln url] urls IH]; intros idx r Hr; [exact Hr|].
  rewrite loop_cons. destruct r as [s f p d ec cs].
  entry_cases E opts sk true total idx ln url (Run s f p d ec cs);
    try apply IH; destruct sk; run_simpl; rewrite ?Hw; try assumption;
    apply load_after_save.
Qed.

(** One execution of the body calls the collaborator once, for the URL
    of the entry, unless the entry is skipped; it writes the failed map
    under that URL only, and adds that URL only to the processed set. *)
Lemma entry_effects E opts sk resume total idx ln url r :
  forall fl r', process_entry E opts sk resume total idx (ln, url) r = (fl, r') ->
  calls r' = calls r ++ (if skips resume url r then [] else [(url, opts)])
  /\ (failed_urls (self r') = failed_urls (self r)
      \/ exists info,
           failed_urls (self r') = PyDict.set url info (failed_urls (self r)))
  /\ processed_urls (self r') ⊆ {[url]} ∪ processed_urls (self r)
  /\ (resume = false -> fl = Next -> skips resume url r = false).
Proof.
  intros fl r'. destruct r as [s f p d ec cs].
  entry_cases E opts sk resume total idx ln url (Run s f p d ec cs);
    intros [= <- <-]; destruct resume, sk; run_simpl;
    rewrite ?app_nil_r;
    (split; [reflexivity|]); (split; [eauto|]);
    (split; [set_solver | auto; try discriminate]).
Qed.

(** The calls made so far stay in the list of calls. *)
Lemma loop_calls_grow E opts sk resume total urls : forall idx r c,
  In c (calls r) ->
  In c (calls (process_loop E opts sk resume total idx urls r)).
Proof.
  induction urls as [|[ln u] urls IH]; intros idx r c Hc; [exact Hc|].
  rewrite loop_cons.
  destruct (process_entry E opts sk resume total idx (ln, u) r)
    as [fl r'] eqn:He.
  destruct (entry_effects _ _ _ _ _ _ _ _ _ _ _ He) as (Hcs & _).
  assert (Hc' : In c (calls r')) by (rewrite Hcs; apply in_or_app; auto).
  destruct fl; [apply IH|]; exact Hc'.
Qed.

(** A URL that is not marked processed and of which no download returns
    [True] is not marked processed by the loop. *)
Lemma loop_leaves_unprocessed E opts sk resume total url urls : forall idx r,
  url ∉ processed_urls (self r) ->
  (forall k ln, urls !! k = Some (ln, url) ->
                download_audio (fetch E (idx + k)) url opts <> Return true) ->
  url ∉ processed_urls (self (process_loop E opts sk resume total idx urls r)).
Proof.
  induction urls as [|[ln u] urls IH]; intros idx r Hout Hdl; [exact Hout|].
  rewrite loop_cons.
  assert (Hr' : forall fl r',
            process_entry E opts sk resume total idx (ln, u) r = (fl, r') ->
            url ∉ processed_urls (self r')).
  { intros fl r'. destruct r as [s f p d ec cs].
    entry_cases E opts sk resume total idx ln u (Run s f p d ec cs);
      intros [= <- <-]; destruct resume, sk; run_simpl; try exact Hout.
    all: intros Hin; apply elem_of_union in Hin as [Hin|Hin]; [|auto].
    all: apply elem_of_singleton in Hin; subst u.
    all: apply (Hdl 0 ln eq_refl); rewrite Nat.add_0_r; exact Hdl0. }
  destruct (process_entry E opts sk resume total idx (ln, u) r)
    as [[|] r'] eqn:He; [|exact (Hr' _ _ eq_refl)].
  apply IH; [exact (Hr' _ _ eq_refl)|].
  intros k ln' Hk. replace (S idx + k) with (idx + S k) by lia.
  apply (Hdl (S k) ln'). exact Hk.
Qed.

(** A loop that is not interrupted calls the collaborator for every URL
    of its list that is not marked processed when it starts. *)
Lemma loop_fetches_unprocessed E opts sk resume total url urls : forall idx r,
  In url (map snd urls) ->
  url ∉ processed_urls (self r) ->
  interrupted (process_loop E opts sk resume total idx urls r) = false ->
  In (url, opts) (calls (process_loop E opts sk resume total idx urls r)).
Proof.
  induction urls as [|[ln u] urls IH]; intros idx r Hin Hout Hni;
    [destruct Hin|].
  rewrite loop_cons in *.
  destruct (process_entry E opts sk resume total idx (ln, u) r)
    as [[|] r'] eqn:He; [|apply entry_break in He; congruence].
  destruct (entry_effects _ _ _ _ _ _ _ _ _ _ _ He) as (Hcs & _ & Hp & _).
  destruct (String.eqb_spec u url) as [->|Hne].
  - apply loop_calls_grow. rewrite Hcs. unfold skips.
    rewrite (bool_decide_eq_false_2 _ Hout), andb_false_r.
    apply in_or_app. right. left. reflexivity.
  - apply IH; [| |exact Hni].
    + destruct Hin as [Hin|Hin]; [simpl in Hin; congruence | exact Hin].
    + intros Hu. apply Hp, elem_of_union in Hu as [Hu|Hu]; [|auto].
      apply elem_of_singleton in Hu. congruence.
Qed.

(** The resume file never holds a processed URL that the processor does
    not hold: a write that goes through stores the processor's set, one
    that fails leaves the older file or an unreadable one. *)
Lemma loop_disk_behind E opts sk resume total urls : forall idx r,
  processed_urls (BatchProcessor_init (disk r)) ⊆ processed_urls (self r) ->
  processed_urls
    (BatchProcessor_init (disk (process_loop E opts sk resume total idx urls r)))
  ⊆ processed_urls (self (process_loop E opts sk resume total idx urls r)).
Proof.
  induction urls as [|[ln u] urls IH]; intros idx r Hr; [exact Hr|].
  rewrite loop_cons.
  assert (Hr' : forall fl r',
            process_entry E opts sk resume total idx (ln, u) r = (fl, r') ->
            processed_urls (BatchProcessor_init (disk r'))
            ⊆ processed_urls (self r')).
  { intros fl r'. destruct r as [s f p d ec cs].
    entry_cases E opts sk resume total idx ln u (Run s f p d ec cs);
      intros [= <- <-]; destruct resume, sk; run_simpl;
      try destruct (save_io E idx); simpl;
      rewrite ?list_to_set_elements_L; set_solver. }
  destruct (process_entry E opts sk resume total idx (ln, u) r)
    as [[|] r'] eqn:He; [apply IH|]; exact (Hr' _ _ eq_refl).
Qed.

(** A first run in resume mode, which starts from the resume file as it
    is, and a second run in resume mode over the same list, which starts
    from the resume file as the first run left it. *)
Definition first_run (E1 : Env) (d : option file) (urls : list (nat * string))
    (opts1 : options) (sk1 : bool) : run :=
  process_urls E1 (BatchProcessor_init d) d urls opts1 sk1 true.

Definition second_run (E1 E2 : Env) (d : option file)
    (urls : list (nat * string)) (opts1 opts2 : options) (sk1 sk2 : bool)
  : run :=
  process_urls E2
    (BatchProcessor_init (disk (first_run E1 d urls opts1 sk1)))
    (disk (first_run E1 d urls opts1 sk1)) urls opts2 sk2 true.

(** C5 (amended). In resume mode an entry whose URL is marked processed
    is gone through without a call of the collaborator and counted as a
    success. So a list whose URLs are all marked processed causes no call
    at all; this is what a second resume-mode run over the same list
    meets after a first one that was complete, had no failure, and whose
    state was saved. A URL of the list that was not marked processed
    before the first run and of which no download in the first run
    returned success is not marked processed after it, and a second
    resume-mode run over the same list that is not interrupted fetches
    it. *)
Theorem processed_urls_are_skipped_in_resume_mode :
  (forall E opts sk total idx ln url r,
     url ∈ processed_urls (self r) ->
     exists r',
       process_entry E opts sk true total idx (ln, url) r = (Next, r')
       /\ calls r' = calls r
       /\ success_count r' = S (success_count r)
       /\ failed_count r' = failed_count r
       /\ self r' = self r /\ disk r' = disk r)
  /\ (forall E p d urls opts sk,
        Forall (fun e => e.2 ∈ processed_urls p) urls ->
        calls (process_urls E p d urls opts sk true) = []
        /\ success_count (process_urls E p d urls opts sk true) = length urls
        /\ failed_count (process_urls E p d urls opts sk true) = 0)
  /\ (forall E1 E2 d urls opts1 opts2 sk1 sk2,
        (forall i, save_io E1 i = WriteOk) ->
        interrupted
          (process_urls E1 (BatchProcessor_init d) d urls opts1 sk1 true)
        = false ->
        failed_count
          (process_urls E1 (BatchProcessor_init d) d urls opts1 sk1 true)
        = 0 ->
        calls
          (process_urls E2
             (BatchProcessor_init
                (disk (process_urls E1 (BatchProcessor_init d) d urls opts1
                         sk1 true)))
             (disk (process_urls E1 (BatchProcessor_init d) d urls opts1 sk1
                      true))
             urls opts2 sk2 true) = []
        /\ success_count
             (process_urls E2
                (BatchProcessor_init
                   (disk (process_urls E1 (BatchProcessor_init d) d urls
                            opts1 sk1 true)))
                (disk (process_urls E1 (BatchProcessor_init d) d urls opts1
                         sk1 true))
                urls opts2 sk2 true) = length urls)
  /\ (forall E1 E2 d urls opts1 opts2 sk1 sk2 url,
        In url (map snd urls) ->
        url ∉ processed_urls (BatchProcessor_init d) ->
        (forall k ln, urls !! k = Some (ln, url) ->
                      download_audio (fetch E1 (S k)) url opts1 <> Return true) ->
        interrupted (second_run E1 E2 d urls opts1 opts2 sk1 sk2) = false ->
        (url ∉ processed_urls (self (first_run E1 d urls opts1 sk1)))
        /\ (url ∉ processed_urls
                    (BatchProcessor_init
                       (disk (first_run E1 d urls opts1 sk1))))
        /\ In (url, opts2)
              (calls (second_run E1 E2 d urls opts1 opts2 sk1 sk2))).
Proof.
  assert (HB : forall E p d urls opts sk,
             Forall (fun e => e.2 ∈ processed_urls p) urls ->
             calls (process_urls E p d urls opts sk true) = []
             /\ success_count (process_urls E p d urls opts sk true) = length urls
             /\ failed_count (process_urls E p d urls opts sk true) = 0).
  { intros E p d urls opts sk Hall. unfold process_urls.
    destruct (loop_all_processed E opts sk (length urls) urls 1
                (Run 0 0 p d [] []) Hall) as (H1 & H2 & H3 & _).
    auto. }
  assert (Hstep : forall E1 d urls opts1 sk1,
             (forall i, save_io E1 i = WriteOk) ->
             BatchProcessor_init
               (disk (process_urls E1 (BatchProcessor_init d) d urls opts1 sk1
                        true))
             = self (process_urls E1 (BatchProcessor_init d) d urls opts1 sk1
                       true)).
  { intros E1 d urls opts1 sk1 Hw.
    apply (loop_in_step E1 opts1 sk1 (length urls) urls Hw 1
             (Run 0 0 (BatchProcessor_init d) d [] [])).
    reflexivity. }
  split; [|split; [exact HB|split]].
  - intros E opts sk total idx ln url r Hin.
    eexists. split.
    + apply entry_skipped. unfold skips.
      rewrite bool_decide_eq_true_2 by assumption. reflexivity.
    + destruct r. simpl. auto.
  - intros E1 E2 d urls opts1 opts2 sk1 sk2 Hw Hni Hf.
    rewrite (Hstep E1 d urls opts1 sk1 Hw).
    set (r1 := process_urls E1 (BatchProcessor_init d) d urls opts1 sk1 true) in *.
    assert (Hall : Forall (fun e => e.2 ∈ processed_urls (self r1)) urls).
    { apply loop_successes_processed; assumption. }
    destruct (HB E2 (self r1) (disk r1) urls opts2 sk2 Hall) as (H1 & H2 & _).
    auto.
  - intros E1 E2 d urls opts1 opts2 sk1 sk2 url Hin Hout Hdl Hni.
    unfold second_run, first_run in *.
    assert (Hout1 : url ∉ processed_urls
                            (self (process_urls E1 (BatchProcessor_init d) d
                                     urls opts1 sk1 true))).
    { unfold process_urls.
      apply (loop_leaves_unprocessed E1 opts1 sk1 true (length urls) url urls 1
               (Run 0 0 (BatchProcessor_init d) d [] []) Hout).
      intros k ln Hk. exact (Hdl k ln Hk). }
    assert (Hout2 : url ∉ processed_urls
                            (BatchProcessor_init
                               (disk (process_urls E1 (BatchProcessor_init d) d
                                        urls opts1 sk1 true)))).
    { intros Hu. apply Hout1. revert Hu. unfold process_urls.
      apply (loop_disk_behind E1 opts1 sk1 true (length urls) urls 1
               (Run 0 0 (BatchProcessor_init d) d [] [])).
      reflexivity. }
    split; [exact Hout1|]. split; [exact Hout2|].
    unfold process_urls in *.
    apply loop_fetches_unprocessed; assumption.
Qed.

Lemma processed_urls_are_skipped_witness :
  (calls
     (process_urls (scripted [fails])
        (BatchProcessor_init
           (disk (process_urls (scripted [ok; ok]) (BatchProcessor_init None)
                    None [(1, "http://a"); (2, "http://b")] opts0 false true)))
        (disk (process_urls (scripted [ok; ok]) (BatchProcessor_init None) None
                 [(1, "http://a"); (2, "http://b")] opts0 false true))
        [(1, "http://a"); (2, "http://b")] opts0 false true) = []
   /\ success_count
        (process_urls (scripted [fails])
           (BatchProcessor_init
              (disk (process_urls (scripted [ok; ok]) (BatchProcessor_init None)
                       None [(1, "http://a"); (2, "http://b")] opts0 false
                       true)))
           (disk (process_urls (scripted [ok; ok]) (BatchProcessor_init None)
                    None [(1, "http://a"); (2, "http://b")] opts0 false true))
           [(1, "http://a"); (2, "http://b")] opts0 false true) = 2)
  /\ In ("http://b", opts0)
        (calls (second_run (scripted [ok; fails]) (scripted [ok; ok]) None
                  [(1, "http://a"); (2, "http://b")] opts0 opts0 false false)).
Proof.
  split.
  - apply (proj1 (proj2 (proj2 processed_urls_are_skipped_in_resume_mode))
             (scripted [ok; ok]) (scripted [fails]) None
             [(1, "http://a"); (2, "http://b")] opts0 opts0 false false);
      [intros i; reflexivity | reflexivity | reflexivity].
  - apply (proj2 (proj2 (proj2 processed_urls_are_skipped_in_resume_mode))
             (scripted [ok; fails]) (scripted [ok; ok]) None
             [(1, "http://a"); (2, "http://b")] opts0 opts0 false false
             "http://b").
    + simpl. auto.
    + apply not_elem_of_empty.
    + intros k ln Hk. destruct k as [|[|k]]; simpl in Hk; try discriminate Hk.
      vm_compute. discriminate.
    + reflexivity.
Defined.

(** C5 as stated fails when the first run had a failure: the list is the
    same in the second resume-mode run, the failed URL is not marked
    processed, and the collaborator is called for it again. *)
Lemma failed_url_is_fetched_again :
  interrupted
    (process_urls (scripted [ok; fails]) (BatchProcessor_init None) None
       [(1, "http://a"); (2, "http://b")] opts0 false true) = false
  /\ map fst
       (calls
          (process_urls (scripted [ok; ok])
             (BatchProcessor_init
                (disk (process_urls (scripted [ok; fails])
                         (BatchProcessor_init None) None
                         [(1, "http://a"); (2, "http://b")] opts0 false true)))
             (disk (process_urls (scripted [ok; fails])
                      (BatchProcessor_init None) None
                      [(1, "http://a"); (2, "http://b")] opts0 false true))
             [(1, "http://a"); (2, "http://b")] opts0 false true))
     = ["http://b"].
Proof. split; vm_compute; reflexivity. Qed.

(** A URL that is listed twice, fails at its first entry and is
    downloaded at its second, is marked processed by the first run, which
    counted a failure; the second run does not fetch it. *)
Example failed_then_downloaded_is_not_fetched_again :
  failed_count
    (first_run (scripted [fails; ok]) None [(1, "http://a"); (2, "http://a")]
       opts0 false) = 1
  /\ calls
       (second_run (scripted [fails; ok]) (scripted [ok; ok]) None
          [(1, "http://a"); (2, "http://a")] opts0 opts0 false false) = [].
Proof. split; vm_compute; reflexivity. Qed.

(** C6. Saving a resume state with a write that goes through and loading
    the file again gives back the same set of processed URLs and the same
    failed map, whatever the processor held before the load. *)
Theorem resume_state_round_trip (now : string) (state q : BatchProcessor)
    (disk0 : option file) :
  processed_urls
    (load_resume_data q (save_resume_data now WriteOk state disk0))
  = processed_urls state
  /\ failed_urls
       (load_resume_data q (save_resume_data now WriteOk state disk0))
     = failed_urls state
  /\ BatchProcessor_init (save_resume_data now WriteOk state disk0) = state.
Proof.
  unfold BatchProcessor_init. rewrite !load_after_save. auto.
Qed.

(** ** main *)

Lemma main_without_urls cfg E a text d :
  spec_read_urls (input_lines text) = [] ->
  main cfg E a (FileText text) d =
  MainResult 1
    (([EchoBanner; EchoRule]
        ++ (if arg_clear_resume a && bool_decide (d <> None)
            then [EchoCleared] else [])
        ++ [EchoReading (arg_file a)])
       ++ map (fun e => EchoInvalidUrl e.1 e.2)
            (spec_skipped_invalid (input_lines text))
       ++ [EchoNoValidUrls])
    [] (main_disk a d) None.
Proof.
  intros Hno. unfold main, main_disk.
  rewrite read_urls_from_file_text, Hno.
  destruct (arg_clear_resume a && bool_decide (d <> None)); simpl;
    rewrite <- ?app_assoc; reflexivity.
Qed.

Lemma main_with_urls cfg E a text d :
  spec_read_urls (input_lines text) <> [] ->
  fetched (main cfg E a (FileText text) d) = calls (main_run cfg E a text d)
  /\ exit_code (main cfg E a (FileText text) d)
     = (if Nat.eqb (failed_count (main_run cfg E a text d)) 0 then 0%Z else 1%Z)
  /\ resume_file (main cfg E a (FileText text) d)
     = disk (main_run cfg E a text d)
  /\ (forall u info,
        In (u, info) (failed_urls (self (main_run cfg E a text d))) ->
        In (EchoFailedUrl (line info) u)
           (stdout (main cfg E a (FileText text) d))
        /\ In (EchoFailedError (error info))
              (stdout (main cfg E a (FileText text) d))).
Proof.
  intros Hurls. unfold main, main_run, main_processor, main_disk, main_options.
  rewrite read_urls_from_file_text.
  set (urls := spec_read_urls (input_lines text)) in *.
  destruct (arg_clear_resume a && bool_decide (d <> None)); cbv zeta beta iota;
    rewrite (bool_decide_eq_false_2 (urls = []) Hurls);
    set (run0 := process_urls _ _ _ _ _ _ _);
    (assert (Hl : forall u info,
               In (u, info) (failed_urls (self run0)) ->
               In (EchoFailedUrl (line info) u)
                  (failed_listing (failed_urls (self run0)))
               /\ In (EchoFailedError (error info))
                     (failed_listing (failed_urls (self run0))))
       by (intros u info Hin; split; apply in_flat_map; exists (u, info);
           simpl; auto));
    destruct (bool_decide_reflect (failed_urls (self run0) = [])) as [Hnil|Hnn];
    destruct (arg_report a); try destruct (report_io E); simpl;
    (split; [reflexivity | split; [reflexivity | split; [reflexivity|]]]);
    intros u info Hin; try (rewrite Hnil in Hin; destruct Hin);
    destruct (Hl u info Hin); rewrite ?in_app_iff; simpl; tauto.
Qed.

(** Scenario A of the specification: two URLs, a comment and a blank
    line give two entries, with the numbers of their lines. *)
Example two_urls_a_comment_and_a_blank_line :
  read_urls_from_file
    (FileText ("# favourites" +:+ String PyStr.LF "https://youtu.be/x1"
               +:+ String PyStr.LF (String PyStr.LF "  http://youtu.be/x2  ")))
  = (Done [(2, "https://youtu.be/x1"); (4, "http://youtu.be/x2")], []).
Proof. vm_compute. reflexivity. Qed.

(** C7. When the input file holds no valid URL (it is empty, or every
    line is blank, a comment or refused by the validation), [main] stops
    with exit status 1 after the message "No valid URLs found in file":
    [download_audio] is never called and no report is written. *)
Theorem no_valid_url_is_a_hard_stop cfg E a text d :
  spec_read_urls (input_lines text) = [] ->
  exit_code (main cfg E a (FileText text) d) = 1%Z
  /\ fetched (main cfg E a (FileText text) d) = []
  /\ last (stdout (main cfg E a (FileText text) d)) = Some EchoNoValidUrls
  /\ report_file (main cfg E a (FileText text) d) = None.
Proof.
  intros Hno. rewrite (main_without_urls cfg E a text d Hno).
  cbn [exit_code fetched stdout report_file].
  repeat split; try reflexivity.
  rewrite !app_assoc. apply last_snoc.
Qed.

Lemma no_valid_url_witness :
  exit_code (main cfg0 (scripted []) (plain_args false) (FileText no_url_text)
               None) = 1%Z
  /\ fetched (main cfg0 (scripted []) (plain_args false) (FileText no_url_text)
                None) = []
  /\ last (stdout (main cfg0 (scripted []) (plain_args false)
                     (FileText no_url_text) None)) = Some EchoNoValidUrls
  /\ report_file (main cfg0 (scripted []) (plain_args false)
                    (FileText no_url_text) None) = None.
Proof.
  apply (no_valid_url_is_a_hard_stop cfg0 (scripted []) (plain_args false)
           no_url_text None).
  vm_compute. reflexivity.
Defined.

(** Without resume mode, a list of one entry causes one call, for its
    URL and with the configured options. *)
Lemma single_entry_is_fetched E p d ln url opts sk :
  calls (process_urls E p d [(ln, url)] opts sk false) = [(url, opts)].
Proof.
  unfold process_urls. rewrite loop_cons.
  rewrite entry_fetched by reflexivity. cbv zeta.
  destruct (download_audio (fetch E 1) url opts) as [[|]|[|msg]];
    destruct sk; reflexivity.
Qed.

(** C8. [validate_url] accepts exactly the strings that start with
    "http://", "https://" or "www."; so a line "www.youtube.com/watch?v=abc",
    which has no scheme, is read as a URL and handed to [download_audio]
    as it is, and a string with another scheme, such as "ftp://", is
    refused. *)
Theorem validate_url_accepts_exactly_three_prefixes :
  (forall s,
     validate_url s = true <->
     (exists rest, s = "http://" +:+ rest)
     \/ (exists rest, s = "https://" +:+ rest)
     \/ (exists rest, s = "www." +:+ rest))
  /\ (forall rest, validate_url ("www." +:+ rest) = true)
  /\ (forall rest, validate_url ("ftp://" +:+ rest) = false)
  /\ read_urls_from_file (FileText "www.youtube.com/watch?v=abc")
     = (Done [(1, "www.youtube.com/watch?v=abc")], [])
  /\ (forall cfg E d,
        fetched (main cfg E (plain_args false)
                   (FileText "www.youtube.com/watch?v=abc") d)
        = [("www.youtube.com/watch?v=abc", main_options cfg (plain_args false))]).
Proof.
  split; [exact validate_url_spec|].
  split; [intros rest; apply validate_url_spec; eauto|].
  split; [intros rest; reflexivity|].
  split; [vm_compute; reflexivity|].
  intros cfg E d.
  destruct (main_with_urls cfg E (plain_args false)
              "www.youtube.com/watch?v=abc" d) as (H1 & _).
  { vm_compute. discriminate. }
  rewrite H1. unfold main_run.
  change (spec_read_urls (input_lines "www.youtube.com/watch?v=abc"))
    with [(1, "www.youtube.com/watch?v=abc")].
  apply single_entry_is_fetched.
Qed.

(** ** The failed map is only added to *)

(** Unless [--clear-resume] is given, [main] runs with the processor as
    [__init__] loaded it from the resume file. *)
Lemma main_processor_loaded (a : args) (d : option file) :
  arg_clear_resume a = false -> main_processor a d = BatchProcessor_init d.
Proof. unfold main_processor. intros ->. reflexivity. Qed.

(** C9. A successful download adds its URL to [processed_urls] and leaves
    [failed_urls] as it is; no step of [process_urls] removes a key of
    [failed_urls]. So a URL that is in the failed map when [process_urls]
    starts or enters it during the run is in the map when [process_urls]
    returns. In [main], a URL that is in the failed map of the processor
    with which the run starts, loaded from the resume file, and a URL
    that is in the failed map at some point of the run, in particular one
    whose download fails or raises at an entry of this run, is listed
    under "Failed URLs:" at the end of [main], also when this run
    downloads it and counts it as a success. *)
Theorem success_never_clears_a_failed_url :
  (forall E opts sk resume total idx ln url r,
     skips resume url r = false ->
     download_audio (fetch E idx) url opts = Return true ->
     exists r',
       process_entry E opts sk resume total idx (ln, url) r = (Next, r')
       /\ failed_urls (self r') = failed_urls (self r)
       /\ processed_urls (self r') = {[url]} ∪ processed_urls (self r)
       /\ success_count r' = S (success_count r)
       /\ failed_count r' = failed_count r)
  /\ (forall E p d urls opts sk resume u,
        PyDict.mem u (failed_urls p) = true ->
        PyDict.mem u
          (failed_urls (self (process_urls E p d urls opts sk resume))) = true)
  /\ (forall E p d urls opts sk resume u k,
        PyDict.mem u
          (failed_urls (self (after_first k E p d urls opts sk resume))) = true ->
        PyDict.mem u
          (failed_urls (self (process_urls E p d urls opts sk resume))) = true)
  /\ (forall cfg E a text d u,
        PyDict.mem u (failed_urls (main_processor a d)) = true ->
        spec_read_urls (input_lines text) <> [] ->
        exists info,
          In (EchoFailedUrl (line info) u)
             (stdout (main cfg E a (FileText text) d))
          /\ In (EchoFailedError (error info))
                (stdout (main cfg E a (FileText text) d)))
  /\ (forall cfg E a text d u k,
        PyDict.mem u
          (failed_urls
             (self (after_first k E (main_processor a d) (main_disk a d)
                      (spec_read_urls (input_lines text)) (main_options cfg a)
                      (arg_skip_existing a) (arg_resume a)))) = true ->
        spec_read_urls (input_lines text) <> [] ->
        exists info,
          In (EchoFailedUrl (line info) u)
             (stdout (main cfg E a (FileText text) d))
          /\ In (EchoFailedError (error info))
                (stdout (main cfg E a (FileText text) d)))
  /\ (forall cfg E a text d k ln u err,
        spec_read_urls (input_lines text) !! k = Some (ln, u) ->
        interrupted
          (after_first k E (main_processor a d) (main_disk a d)
             (spec_read_urls (input_lines text)) (main_options cfg a)
             (arg_skip_existing a) (arg_resume a)) = false ->
        skips (arg_resume a) u
          (after_first k E (main_processor a d) (main_disk a d)
             (spec_read_urls (input_lines text)) (main_options cfg a)
             (arg_skip_existing a) (arg_resume a)) = false ->
        (download_audio (fetch E (S k)) u (main_options cfg a) = Return false
         /\ err = "Download failed")
        \/ download_audio (fetch E (S k)) u (main_options cfg a)
           = Raise (PyException err) ->
        exists info,
          In (EchoFailedUrl (line info) u)
             (stdout (main cfg E a (FileText text) d))
          /\ In (EchoFailedError (error info))
                (stdout (main cfg E a (FileText text) d))).
Proof.
  assert (HB : forall E p d urls opts sk resume u,
             PyDict.mem u (failed_urls p) = true ->
             PyDict.mem u
               (failed_urls (self (process_urls E p d urls opts sk resume)))
             = true).
  { intros E p d urls opts sk resume u Hu. unfold process_urls.
    apply (loop_keeps E opts sk resume (length urls) urls 1
             (Run 0 0 p d [] [])).
    exact Hu. }
  assert (HC : forall E p d urls opts sk resume u k,
             PyDict.mem u
               (failed_urls (self (after_first k E p d urls opts sk resume)))
             = true ->
             PyDict.mem u
               (failed_urls (self (process_urls E p d urls opts sk resume)))
             = true).
  { intros E p d urls opts sk resume u k Hu.
    unfold process_urls, after_first in *.
    destruct (loop_from_prefix E opts sk resume (length urls) (take k urls) 1
                (drop k urls) (Run 0 0 p d [] [])) as (idx' & rest & Heq).
    rewrite take_drop in Heq. rewrite Heq.
    apply (loop_keeps E opts sk resume (length urls) rest idx'). exact Hu. }
  assert (HL : forall cfg E a text d u,
             spec_read_urls (input_lines text) <> [] ->
             PyDict.mem u (failed_urls (self (main_run cfg E a text d)))
             = true ->
             exists info,
               In (EchoFailedUrl (line info) u)
                  (stdout (main cfg E a (FileText text) d))
               /\ In (EchoFailedError (error info))
                     (stdout (main cfg E a (FileText text) d))).
  { intros cfg E a text d u Hurls Hm.
    destruct (main_with_urls cfg E a text d Hurls) as (_ & _ & _ & Hlist).
    unfold PyDict.mem in Hm.
    destruct (PyDict.get u (failed_urls (self (main_run cfg E a text d))))
      as [info|] eqn:Hget; [|discriminate].
    apply get_in in Hget as (u' & Heq & Hin).
    apply String.eqb_eq in Heq. subst u'.
    exists info. apply Hlist. exact Hin. }
  split; [|split; [exact HB|split; [exact HC|split; [|split]]]].
  - intros E opts sk resume total idx ln url r Hskip Hdl.
    rewrite (entry_fetched _ _ _ _ _ _ _ _ _ Hskip). cbv zeta. rewrite Hdl.
    eexists. split; [reflexivity|].
    destruct r, resume, sk; run_simpl; auto.
  - intros cfg E a text d u Hu Hurls.
    apply HL; [exact Hurls|]. unfold main_run. apply HB. exact Hu.
  - intros cfg E a text d u k Hu Hurls.
    apply HL; [exact Hurls|]. unfold main_run. apply (HC _ _ _ _ _ _ _ _ k).
    exact Hu.
  - intros cfg E a text d k ln u err Hk Hni Hskip Hdl.
    assert (Hurls : spec_read_urls (input_lines text) <> []).
    { intros Hnil. rewrite Hnil in Hk. discriminate Hk. }
    apply HL; [exact Hurls|]. unfold main_run.
    destruct (failure_step E (main_processor a d) (main_disk a d)
                (spec_read_urls (input_lines text)) (main_options cfg a)
                (arg_skip_existing a) (arg_resume a) k ln u err
                Hk Hni Hskip Hdl) as (r1 & _ & Hget & _ & _ & Heq).
    rewrite Heq.
    apply (loop_keeps E (main_options cfg a) (arg_skip_existing a)
             (arg_resume a) (length (spec_read_urls (input_lines text)))
             (drop (S k) (spec_read_urls (input_lines text))) (S (S k)) r1).
    unfold PyDict.mem. rewrite Hget. reflexivity.
Qed.

(** A URL whose download failed in an earlier run and succeeds in this
    one, and a URL that is listed twice and whose download fails and then
    succeeds in this run: both are listed under "Failed URLs:", and the
    summary counts the download as a success. *)
Lemma success_never_clears_witness :
  ((exists info,
      In (EchoFailedUrl (line info) "http://a")
         (stdout (main cfg0 (scripted [ok]) (plain_args true)
                    (FileText "http://a") earlier_failure))
      /\ In (EchoFailedError (error info))
            (stdout (main cfg0 (scripted [ok]) (plain_args true)
                       (FileText "http://a") earlier_failure)))
   /\ In (EchoSummary 1 1 0 "0:00:05")
         (stdout (main cfg0 (scripted [ok]) (plain_args true)
                    (FileText "http://a") earlier_failure))
   /\ exit_code (main cfg0 (scripted [ok]) (plain_args true)
                   (FileText "http://a") earlier_failure) = 0%Z)
  /\ (exists info,
        In (EchoFailedUrl (line info) "http://a")
           (stdout (main cfg0 (scripted [fails; ok]) (plain_args false)
                      (FileText twice_text) None))
        /\ In (EchoFailedError (error info))
              (stdout (main cfg0 (scripted [fails; ok]) (plain_args false)
                         (FileText twice_text) None)))
  /\ In (EchoSummary 2 1 1 "0:00:05")
        (stdout (main cfg0 (scripted [fails; ok]) (plain_args false)
                   (FileText twice_text) None)).
Proof.
  split; [split|split].
  - apply (proj1 (proj2 (proj2 (proj2 success_never_clears_a_failed_url)))
             cfg0 (scripted [ok]) (plain_args true) "http://a"
             earlier_failure "http://a");
      [reflexivity | vm_compute; discriminate].
  - split; vm_compute; auto 20.
  - apply (proj2 (proj2 (proj2 (proj2 (proj2
                    success_never_clears_a_failed_url))))
             cfg0 (scripted [fails; ok]) (plain_args false) twice_text None
             0 1 "http://a" "Download failed");
      [reflexivity | reflexivity | reflexivity | left; split; reflexivity].
  - vm_compute. auto 20.
Defined.

(** Two downloads that succeed, and a write of the resume file that
    breaks off while the second outcome is being saved. *)
Definition second_write_breaks : Env :=
  MkEnv (fun _ => ok)
        (fun _ => "2024-05-01T10:00:00") (fun _ => "2024-05-01T10:00:01")
        (fun idx => if Nat.eqb idx 2 then IOErrorWhileWriting else WriteOk)
        "0:00:05" "2024-05-01 10:00:06" true.

(** An input file with a comment, a line that is no URL and two URLs. *)
Definition mixed_text : string :=
  "# list" +:+ String PyStr.LF "not a url"
  +:+ String PyStr.LF "http://a" +:+ String PyStr.LF "www.b".

(** [batch.py urls.txt --resume --clear-resume]. *)
Definition clearing_args : args :=
  Args "urls.txt" None None None false false false true true None false.

(* ===================================================================== *)
(** * Further properties of the batch runner *)
(* ===================================================================== *)

(** ** What [process_urls] calls and records *)

Lemma mem_In_keys {V} (k : string) (d : PyDict.t V) :
  PyDict.mem k d = true <-> In k (PyDict.keys d).
Proof.
  unfold PyDict.mem, PyDict.keys.
  induction d as [|[k' v] d IH]; simpl; [split; [discriminate | tauto]|].
  destruct (String.eqb_spec k k') as [->|Hne]; [tauto|].
  rewrite IH. split; [tauto | intros [H|H]; [congruence | exact H]].
Qed.

Lemma keys_set {V} (k : string) (v : V) (d : PyDict.t V) :
  PyDict.keys (PyDict.set k v d) =
  if PyDict.mem k d then PyDict.keys d else PyDict.keys d ++ [k].
Proof.
  unfold PyDict.mem, PyDict.keys.
  induction d as [|[k' v'] d IH]; simpl; [reflexivity|].
  destruct (String.eqb k k'); simpl; [reflexivity|].
  rewrite IH. destruct (PyDict.get k d); reflexivity.
Qed.

Lemma NoDup_keys_set {V} (k : string) (v : V) (d : PyDict.t V) :
  NoDup (PyDict.keys d) -> NoDup (PyDict.keys (PyDict.set k v d)).
Proof.
  intros Hnd. rewrite keys_set.
  destruct (PyDict.mem k d) eqn:Hm; [exact Hnd|].
  apply NoDup_app. split; [exact Hnd|]. split; [|apply NoDup_singleton].
  intros x Hx Hx'. apply list_elem_of_In in Hx.
  apply list_elem_of_singleton in Hx'. subst x.
  apply mem_In_keys in Hx. congruence.
Qed.

(** The calls made by the loop, the keys it leaves in the failed map and
    the URLs it marks processed all come from the entries it went over. *)
Lemma loop_effects E opts sk resume total urls : forall idx r,
  exists cs,
    calls (process_loop E opts sk resume total idx urls r) = calls r ++ cs
    /\ cs `sublist_of` map (fun e => (e.2, opts)) urls
    /\ (resume = false ->
        interrupted (process_loop E opts sk resume total idx urls r) = false ->
        cs = map (fun e => (e.2, opts)) urls)
    /\ (resume = true ->
        forall u o, In (u, o) cs -> u ∉ processed_urls (self r))
    /\ (NoDup (PyDict.keys (failed_urls (self r))) ->
        NoDup (PyDict.keys
                 (failed_urls
                    (self (process_loop E opts sk resume total idx urls r)))))
    /\ (forall k,
          In k (PyDict.keys
                  (failed_urls
                     (self (process_loop E opts sk resume total idx urls r)))) ->
          In k (PyDict.keys (failed_urls (self r))) \/ In k (map snd urls))
    /\ (forall u,
          u ∈ processed_urls
                (self (process_loop E opts sk resume total idx urls r)) ->
          u ∈ processed_urls (self r) \/ In u (map snd urls)).
Proof.
  induction urls as [|[ln url] urls IH]; intros idx r.
  - exists []. simpl. rewrite app_nil_r.
    repeat split; auto.
  - rewrite loop_cons.
    destruct (process_entry E opts sk resume total idx (ln, url) r)
      as [fl r'] eqn:He.
    destruct (entry_effects _ _ _ _ _ _ _ _ _ _ _ He) as (Hc & Hf & Hp & Hs).
    destruct (entry_keeps _ _ _ _ _ _ _ _ _ _ He) as (_ & Hmono & _ & _).
    assert (Hkeys : forall k,
              In k (PyDict.keys (failed_urls (self r'))) ->
              In k (PyDict.keys (failed_urls (self r))) \/ k = url).
    { intros k Hk. destruct Hf as [Hf|[info Hf]]; [rewrite Hf in Hk; auto|].
      rewrite Hf, keys_set in Hk.
      destruct (PyDict.mem url (failed_urls (self r))); [auto|].
      apply in_app_or in Hk as [Hk|[<-|[]]]; auto. }
    assert (Hnd : NoDup (PyDict.keys (failed_urls (self r))) ->
                  NoDup (PyDict.keys (failed_urls (self r')))).
    { intros Hnd. destruct Hf as [Hf|[info Hf]]; rewrite Hf; [exact Hnd|].
      apply NoDup_keys_set, Hnd. }
    assert (Hfresh : resume = true -> forall u o,
              In (u, o) (if skips resume url r then [] else [(url, opts)]) ->
              u ∉ processed_urls (self r)).
    { intros -> u o. unfold skips. simpl.
      destruct (bool_decide_reflect (url ∈ processed_urls (self r)));
        [intros [] | intros [[= <- <-]|[]]; assumption]. }
    destruct fl.
    + destruct (IH (S idx) r') as (cs & H1 & H2 & H3 & H4 & H5 & H6 & H7).
      exists ((if skips resume url r then [] else [(url, opts)]) ++ cs).
      split; [rewrite H1, Hc, app_assoc; reflexivity|].
      split; [|split; [|split; [|split; [|split]]]].
      * simpl. destruct (skips resume url r); simpl;
          [apply sublist_cons | apply sublist_skip]; exact H2.
      * intros Hr Hni. rewrite (Hs Hr eq_refl). simpl. f_equal. auto.
      * intros Hr u o Hin. apply in_app_or in Hin as [Hin|Hin]; [eauto|].
        intros Hu. apply (H4 Hr u o Hin). apply Hmono, Hu.
      * auto.
      * intros k Hk. simpl. destruct (H6 k Hk) as [Hk'|Hk']; [|auto].
        destruct (Hkeys k Hk'); auto.
      * intros u Hu. simpl. destruct (H7 u Hu) as [Hu'|Hu']; [|auto].
        apply Hp in Hu'. apply elem_of_union in Hu' as [Hu'|Hu']; [|auto].
        apply elem_of_singleton in Hu'. auto.
    + exists (if skips resume url r then [] else [(url, opts)]).
      split; [exact Hc|]. split; [|split; [|split; [|split; [|split]]]].
      * simpl. destruct (skips resume url r);
          [apply sublist_nil_l | apply sublist_skip, sublist_nil_l].
      * intros _ Hni. apply entry_break in He. congruence.
      * exact Hfresh.
      * exact Hnd.
      * intros k Hk. simpl. destruct (Hkeys k Hk); auto.
      * intros u Hu. simpl. apply Hp in Hu.
        apply elem_of_union in Hu as [Hu|Hu]; [|auto].
        apply elem_of_singleton in Hu. auto.
Qed.

(** X1. Without resume mode [process_urls] never writes the resume file,
    whatever the downloads do: the file is after the run what it was
    before. *)
Theorem process_urls_without_resume_leaves_the_file E p d urls opts sk :
  disk (process_urls E p d urls opts sk false) = d.
Proof.
  unfold process_urls.
  apply (loop_disk_without_resume E opts sk (length urls) urls 1
           (Run 0 0 p d [] [])).
Qed.

(** X2. In resume mode, when every write goes through, the resume file
    is in step with the processor after every entry: a processor built
    from the file as it is after the first [n] entries holds exactly the
    state that [process_urls] has at that point. *)
Theorem resume_file_follows_every_entry E d urls opts sk n :
  (forall i, save_io E i = WriteOk) ->
  BatchProcessor_init
    (disk (after_first n E (BatchProcessor_init d) d urls opts sk true))
  = self (after_first n E (BatchProcessor_init d) d urls opts sk true).
Proof.
  intros Hw. unfold after_first.
  apply (loop_in_step E opts sk (length urls) (take n urls) Hw 1
           (Run 0 0 (BatchProcessor_init d) d [] [])).
  reflexivity.
Qed.

Lemma resume_file_follows_witness :
  BatchProcessor_init
    (disk (after_first 2 three_then_interrupt (BatchProcessor_init None) None
             five_urls opts0 false true))
  = self (after_first 2 three_then_interrupt (BatchProcessor_init None) None
            five_urls opts0 false true).
Proof.
  apply (resume_file_follows_every_entry three_then_interrupt None five_urls
           opts0 false 2).
  intros i. reflexivity.
Defined.

(** X3. [process_urls] calls [download_audio] at most once per entry, in
    the order of the list, always with the options it was given; without
    resume mode and without an interrupt it calls it exactly once for
    every entry. *)
Theorem calls_follow_the_list E p d urls opts sk resume :
  calls (process_urls E p d urls opts sk resume)
    `sublist_of` map (fun e => (e.2, opts)) urls
  /\ (resume = false ->
      interrupted (process_urls E p d urls opts sk resume) = false ->
      calls (process_urls E p d urls opts sk resume)
      = map (fun e => (e.2, opts)) urls).
Proof.
  unfold process_urls.
  destruct (loop_effects E opts sk resume (length urls) urls 1
              (Run 0 0 p d [] [])) as (cs & H1 & H2 & H3 & _).
  rewrite H1. simpl. auto.
Qed.

Lemma calls_follow_the_list_witness :
  calls (process_urls (scripted [ok; fails]) fresh None
           [(1, "http://a"); (2, "http://b")] opts0 false false)
    `sublist_of` map (fun e => (e.2, opts0)) [(1, "http://a"); (2, "http://b")]
  /\ calls (process_urls (scripted [ok; fails]) fresh None
              [(1, "http://a"); (2, "http://b")] opts0 false false)
     = map (fun e => (e.2, opts0)) [(1, "http://a"); (2, "http://b")].
Proof.
  destruct (calls_follow_the_list (scripted [ok; fails]) fresh None
              [(1, "http://a"); (2, "http://b")] opts0 false false)
    as [H1 H2].
  split; [exact H1 | exact (H2 eq_refl eq_refl)].
Defined.

(** X4. In resume mode [process_urls] never calls [download_audio] for a
    URL that is marked processed when it starts. *)
Theorem resume_mode_never_fetches_a_processed_url E p d urls opts sk u o :
  In (u, o) (calls (process_urls E p d urls opts sk true)) ->
  bool_decide (u ∈ processed_urls p) = false.
Proof.
  unfold process_urls.
  destruct (loop_effects E opts sk true (length urls) urls 1
              (Run 0 0 p d [] [])) as (cs & H1 & _ & _ & H4 & _).
  rewrite H1. simpl. intros Hin.
  apply bool_decide_eq_false_2. exact (H4 eq_refl u o Hin).
Qed.

Lemma resume_mode_never_fetches_witness :
  bool_decide ("http://b" ∈ processed_urls one_processed) = false.
Proof.
  apply (resume_mode_never_fetches_a_processed_url (scripted [ok; fails])
           one_processed None [(1, "http://a"); (2, "http://b")] opts0 false
           "http://b" opts0).
  vm_compute. auto.
Defined.

(** X5. [process_urls] records nothing but the URLs of its list: every
    key of the failed map and every processed URL after the run was there
    before or is a URL of the list; and the keys of the failed map stay
    without repetition (a URL that fails again replaces its record). *)
Theorem process_urls_records_only_its_urls E p d urls opts sk resume :
  (forall k,
     In k (PyDict.keys
             (failed_urls (self (process_urls E p d urls opts sk resume)))) ->
     In k (PyDict.keys (failed_urls p)) \/ In k (map snd urls))
  /\ (forall u,
        u ∈ processed_urls (self (process_urls E p d urls opts sk resume)) ->
        u ∈ processed_urls p \/ In u (map snd urls))
  /\ (NoDup (PyDict.keys (failed_urls p)) ->
      NoDup (PyDict.keys
               (failed_urls (self (process_urls E p d urls opts sk resume))))).
Proof.
  unfold process_urls.
  destruct (loop_effects E opts sk resume (length urls) urls 1
              (Run 0 0 p d [] [])) as (cs & _ & _ & _ & _ & H5 & H6 & H7).
  simpl in *. auto.
Qed.

Lemma process_urls_records_only_witness :
  NoDup (PyDict.keys
           (failed_urls
              (self (process_urls (scripted [fails; ok; fails]) fresh None
                       [(1, "http://a"); (2, "http://b"); (3, "http://a")]
                       opts0 false false)))).
Proof.
  apply (proj2 (proj2 (process_urls_records_only_its_urls
                         (scripted [fails; ok; fails]) fresh None
                         [(1, "http://a"); (2, "http://b"); (3, "http://a")]
                         opts0 false false))).
  apply NoDup_nil_2.
Defined.

(** ** Losing the resume state *)

(** X6. In resume mode the whole state is rewritten after every entry; so
    when the write after the last entry breaks off while writing, the
    file is left unreadable and the next [BatchProcessor] starts empty:
    not only the last outcome is lost but every outcome saved before. *)
Theorem broken_write_loses_every_outcome E p d urls opts sk k ln url :
  urls !! k = Some (ln, url) ->
  S k = length urls ->
  interrupted (after_first k E p d urls opts sk true) = false ->
  skips true url (after_first k E p d urls opts sk true) = false ->
  save_io E (S k) = IOErrorWhileWriting ->
  disk (process_urls E p d urls opts sk true) = Some Unparsable
  /\ BatchProcessor_init (disk (process_urls E p d urls opts sk true))
     = Processor ∅ [].
Proof.
  intros Hk Hlast Hni Hskip Hw.
  assert (Hd : disk (process_urls E p d urls opts sk true) = Some Unparsable).
  { rewrite (process_urls_at E p d urls opts sk true k (ln, url) Hk Hni).
    rewrite (entry_fetched _ _ _ _ _ _ _ _ _ Hskip). cbv zeta.
    rewrite drop_ge by lia.
    destruct (after_first k E p d urls opts sk true) as [s f q dk ec cs].
    destruct (download_audio (fetch E (S k)) url opts) as [[|]|[|msg]];
      destruct sk; run_simpl; rewrite Hw; reflexivity. }
  split; [exact Hd | rewrite Hd; reflexivity].
Qed.

Lemma broken_write_witness :
  disk (process_urls second_write_breaks fresh None
          [(1, "http://a"); (2, "http://b")] opts0 false true)
  = Some Unparsable
  /\ BatchProcessor_init
       (disk (process_urls second_write_breaks fresh None
                [(1, "http://a"); (2, "http://b")] opts0 false true))
     = Processor ∅ [].
Proof.
  apply (broken_write_loses_every_outcome second_write_breaks fresh None
           [(1, "http://a"); (2, "http://b")] opts0 false 1 2 "http://b");
    reflexivity.
Defined.

(** The first write of that run had gone through: after the first entry
    the file held the first outcome. *)
Example first_outcome_was_saved :
  processed_urls
    (BatchProcessor_init
       (disk (after_first 1 second_write_breaks fresh None
                [(1, "http://a"); (2, "http://b")] opts0 false true)))
  = {["http://a"]}.
Proof. vm_compute. reflexivity. Qed.

(** ** What [main] does with its inputs *)

(** For a run that was not interrupted, the two counters add up to the
    length of the list. *)
Lemma counters_sum E p d urls opts sk resume :
  interrupted (process_urls E p d urls opts sk resume) = false ->
  success_count (process_urls E p d urls opts sk resume)
  + failed_count (process_urls E p d urls opts sk resume) = length urls.
Proof.
  intros Hni. unfold process_urls in *.
  destruct (loop_counts E opts sk resume (length urls) urls 1 _ Hni)
    as (H1 & _). simpl in H1. exact H1.
Qed.



(** X7. When the file holds a valid URL, the exit status of [main] is 0
    exactly when no failure was counted, and 1 otherwise; for a run that
    was not interrupted, it is 0 exactly when every entry was counted as
    a success. *)
Theorem exit_status_tells_failures cfg E a text d :
  spec_read_urls (input_lines text) <> [] ->
  (exit_code (main cfg E a (FileText text) d) = 0%Z
   \/ exit_code (main cfg E a (FileText text) d) = 1%Z)
  /\ (exit_code (main cfg E a (FileText text) d) = 0%Z
      <-> failed_count (main_run cfg E a text d) = 0)
  /\ (interrupted (main_run cfg E a text d) = false ->
      (exit_code (main cfg E a (FileText text) d) = 0%Z
       <-> success_count (main_run cfg E a text d)
           = length (spec_read_urls (input_lines text)))).
Proof.
  intros Hurls.
  destruct (main_with_urls cfg E a text d Hurls) as (_ & Hx & _).
  rewrite Hx.
  assert (Hiff : (if Nat.eqb (failed_count (main_run cfg E a text d)) 0
                  then 0%Z else 1%Z) = 0%Z
                 <-> failed_count (main_run cfg E a text d) = 0).
  { destruct (Nat.eqb_spec (failed_count (main_run cfg E a text d)) 0);
      split; intros; [assumption | reflexivity | discriminate | contradiction]. }
  split; [|split].
  - destruct (Nat.eqb (failed_count (main_run cfg E a text d)) 0); auto.
  - exact Hiff.
  - intros Hni. rewrite Hiff. unfold main_run in *.
    pose proof (counters_sum E (main_processor a d) (main_disk a d)
                  (spec_read_urls (input_lines text)) (main_options cfg a)
                  (arg_skip_existing a) (arg_resume a) Hni) as Hsum.
    lia.
Qed.

Lemma exit_status_witness :
  exit_code (main cfg0 (scripted [ok; fails]) (plain_args false)
               (FileText mixed_text) None) = 0%Z
  \/ exit_code (main cfg0 (scripted [ok; fails]) (plain_args false)
                  (FileText mixed_text) None) = 1%Z.
Proof.
  apply (proj1 (exit_status_tells_failures cfg0 (scripted [ok; fails])
                  (plain_args false) mixed_text None
                  ltac:(vm_compute; discriminate))).
Defined.

(** X8. Whatever the input file holds, every URL that [main] hands to
    [download_audio] passes [validate_url], and every call carries the
    options of the command line completed by the configured defaults. *)
Theorem main_fetches_only_valid_urls cfg E a input d u o :
  In (u, o) (fetched (main cfg E a input d)) ->
  validate_url u = true /\ o = main_options cfg a.
Proof.
  destruct input as [|text].
  - unfold main. simpl.
    destruct (arg_clear_resume a && bool_decide (d <> None)); intros [].
  - destruct (list_eq_nil_dec (spec_read_urls (input_lines text)))
      as [Hno|Hurls].
    + rewrite (main_without_urls cfg E a text d Hno). intros [].
    + destruct (main_with_urls cfg E a text d Hurls) as (-> & _).
      unfold main_run. intros Hin.
      destruct (loop_effects E (main_options cfg a) (arg_skip_existing a)
                  (arg_resume a) (length (spec_read_urls (input_lines text)))
                  (spec_read_urls (input_lines text)) 1
                  (Run 0 0 (main_processor a d) (main_disk a d) [] []))
        as (cs & H1 & H2 & _).
      unfold process_urls in Hin. rewrite H1 in Hin. simpl in Hin.
      apply list_elem_of_In in Hin.
      apply (elem_of_sublist _ _ _ Hin) in H2.
      apply list_elem_of_In, in_map_iff in H2 as ([n u'] & [= <- <-] & Hu).
      apply filter_In in Hu as [_ Hu]. simpl in Hu.
      apply andb_true_iff in Hu as [_ Hu]. auto.
Qed.

Lemma main_fetches_only_valid_witness :
  validate_url "www.b" = true
  /\ opts0 = main_options (Config "out" "192" "mp3") (plain_args false).
Proof.
  apply (main_fetches_only_valid_urls (Config "out" "192" "mp3")
           (scripted [ok; fails]) (plain_args false) (FileText mixed_text)
           None "www.b" opts0).
  vm_compute. auto.
Defined.

(** ** [main] and a resume file that cannot be loaded *)

(** [load_resume_data] catches [json.JSONDecodeError] and [IOError] only.
    An exception of another class that is raised under its [try] comes
    out of [BatchProcessor()]: [UnicodeDecodeError] when the file is no
    text in the expected encoding, [AttributeError] when the document is
    no object (it has no [get]), [TypeError] when the value of
    'processed' cannot be made a set. [Loads d] is a resume file that
    [load_resume_data] gets through: there is none, or it is one that
    [file] describes (no JSON, not readable, or an object whose fields,
    where present, are a list of strings and a dictionary of failure
    records). [LoadRaises e] is a file on which [e] comes out of it. A
    document that is loaded without an exception but holds values of
    other types is described by neither. *)
Inductive resume_store : Type :=
| Loads (d : option file)
| LoadRaises (e : exn).

(** How the batch command ends: [main] reaches one of its [sys.exit]
    calls, or an exception comes out of it after [out] was echoed, the
    resume file being [store] at that point. *)
Inductive batch_end : Type :=
| BatchExit (r : main_result)
| BatchUncaught (e : exn) (out : list echo) (store : resume_store).

(** [main] over any resume file. [processor = BatchProcessor()] is the
    first statement of [main] that reads the file: when it raises, [main]
    ends there, after the banner and before [clear_resume] is looked at. *)
Definition batch_main (cfg : config) (E : Env) (a : args) (input : file_input)
    (store : resume_store) : batch_end :=
  match store with
  | Loads d => BatchExit (main cfg E a input d)
  | LoadRaises e => BatchUncaught e [EchoBanner; EchoRule] store
  end.

(** X9. With [--clear-resume] and a resume file that [load_resume_data]
    gets through, a run does what it would do if there were no resume
    file: the same calls, the same exit status, the same resume file and
    the same report at the end. An existing file is removed before the
    URLs are read, so it is gone even when the run stops for lack of a
    valid URL. A resume file on which [load_resume_data] raises is not
    cleared: the exception comes out of [BatchProcessor()] before the
    option is looked at, so [main] ends with it, the file stays and
    nothing is fetched. *)
Theorem clear_resume_is_a_fresh_start_unless_load_raises cfg E a input :
  arg_clear_resume a = true ->
  (forall d, exists r r0,
     batch_main cfg E a input (Loads d) = BatchExit r
     /\ batch_main cfg E a input (Loads None) = BatchExit r0
     /\ fetched r = fetched r0
     /\ exit_code r = exit_code r0
     /\ resume_file r = resume_file r0
     /\ report_file r = report_file r0
     /\ (forall text,
           input = FileText text -> spec_read_urls (input_lines text) = [] ->
           resume_file r = None))
  /\ (forall e,
        batch_main cfg E a input (LoadRaises e)
        = BatchUncaught e [EchoBanner; EchoRule] (LoadRaises e)).
Proof.
  intros Hclear. split; [|reflexivity].
  intros d. exists (main cfg E a input d), (main cfg E a input None).
  split; [reflexivity|]. split; [reflexivity|].
  assert (Hsame : forall text,
            spec_read_urls (input_lines text) <> [] ->
            main_run cfg E a text d = main_run cfg E a text None).
  { intros text _. unfold main_run, main_processor, main_disk.
    rewrite Hclear. destruct d; reflexivity. }
  destruct input as [|text].
  - unfold main. rewrite Hclear. simpl.
    destruct d; simpl; repeat split; try reflexivity; intros text [=].
  - destruct (list_eq_nil_dec (spec_read_urls (input_lines text)))
      as [Hno|Hurls].
    + rewrite !(main_without_urls cfg E a text _ Hno).
      unfold main_disk. rewrite Hclear.
      destruct d; simpl; repeat split; reflexivity.
    + destruct (main_with_urls cfg E a text d Hurls) as (H1 & H2 & H3 & _).
      destruct (main_with_urls cfg E a text None Hurls) as (G1 & G2 & G3 & _).
      rewrite H1, H2, H3, G1, G2, G3, (Hsame text Hurls).
      split; [reflexivity|]. split; [reflexivity|]. split; [reflexivity|].
      split; [|intros text' [= <-] Hno; contradiction].
      unfold main, main_run, main_processor, main_disk, main_options.
      rewrite read_urls_from_file_text, Hclear.
      rewrite (bool_decide_eq_false_2 _ Hurls).
      destruct d; simpl;
        destruct (arg_report a); try destruct (report_io E); reflexivity.
Qed.

Lemma clear_resume_witness :
  (exists r r0,
     batch_main cfg0 (scripted [ok; ok]) clearing_args (FileText mixed_text)
       (Loads earlier_failure) = BatchExit r
     /\ batch_main cfg0 (scripted [ok; ok]) clearing_args (FileText mixed_text)
          (Loads None) = BatchExit r0
     /\ fetched r = fetched r0
     /\ exit_code r = exit_code r0
     /\ resume_file r = resume_file r0
     /\ report_file r = report_file r0
     /\ (forall text,
           FileText mixed_text = FileText text ->
           spec_read_urls (input_lines text) = [] ->
           resume_file r = None))
  /\ batch_main cfg0 (scripted [ok; ok]) clearing_args (FileText mixed_text)
       (LoadRaises (PyException "'list' object has no attribute 'get'"))
     = BatchUncaught (PyException "'list' object has no attribute 'get'")
         [EchoBanner; EchoRule]
         (LoadRaises (PyException "'list' object has no attribute 'get'")).
Proof.
  destruct (clear_resume_is_a_fresh_start_unless_load_raises cfg0
              (scripted [ok; ok]) clearing_args (FileText mixed_text) eq_refl)
    as [H1 H2].
  split; [exact (H1 earlier_failure)|].
  exact (H2 (PyException "'list' object has no attribute 'get'")).
Defined.

(* ===================================================================== *)
(** * The option checks and the single-run command *)
(* ===================================================================== *)

(** ** Python: [int(s)], [str(n)], [s.lower()], [s.isdigit()] *)

Module PyInt.

(** The blanks that [int(s)] skips around the number: the ASCII ones and,
    among the code points from 128 on, NEL and NBSP. (The separators FS
    to US, which [str.strip] removes, are not among them.) *)
Definition isspace (c : ascii) : bool :=
  let n := nat_of_ascii c in
  (Nat.leb 9 n && Nat.leb n 13) || Nat.eqb n 32 || Nat.eqb n 133
  || Nat.eqb n 160.

Definition is_digit (c : ascii) : bool :=
  let n := nat_of_ascii c in Nat.leb 48 n && Nat.leb n 57.

Definition digit_value (c : ascii) : Z := Z.of_nat (nat_of_ascii c - 48).

Fixpoint lstrip (s : string) : string :=
  match s with
  | EmptyString => EmptyString
  | String c s' => if isspace c then lstrip s' else s
  end.

Fixpoint rstrip (s : string) : string :=
  match s with
  | EmptyString => EmptyString
  | String c s' =>
      let r := rstrip s' in
      if isspace c && PyStr.is_empty r then EmptyString else String c r
  end.

(** The digits of a decimal literal, most significant first; a single
    underscore may stand between two digits. [after_digit] tells whether
    the character before was a digit; [acc] is the value read so far. *)
Fixpoint digits (acc : Z) (after_digit : bool) (s : string) : option Z :=
  match s with
  | EmptyString => if after_digit then Some acc else None
  | String c s' =>
      if is_digit c then digits (10 * acc + digit_value c) true s'
      else if Ascii.eqb c "_" then
        if after_digit then digits acc false s' else None
      else None
  end.

Fixpoint count_digits (s : string) : nat :=
  match s with
  | EmptyString => 0
  | String c s' => (if is_digit c then 1 else 0) + count_digits s'
  end.

(** [sys.int_info.default_max_str_digits] *)
Definition max_str_digits : nat := 4300.

(** [int(s)] for a string [s]; [None] is [ValueError]. *)
Definition parse (s : string) : option Z :=
  let t := rstrip (lstrip s) in
  let '(sign, body) :=
    match t with
    | String c r =>
        if Ascii.eqb c "+" then (1%Z, r)
        else if Ascii.eqb c "-" then ((-1)%Z, r)
        else (1%Z, t)
    | EmptyString => (1%Z, t)
    end in
  if Nat.ltb max_str_digits (count_digits body) then None
  else option_map (Z.mul sign) (digits 0 false body).

(** [str(n)] for an integer [n]. *)
Definition to_str (n : Z) : string := pretty n.

End PyInt.

Module PyChar.

(** [c.lower()] at the code points below 256: the capital letters A to Z,
    and the capital letters from 192 to 222 except the sign at 215. *)
Definition lower (c : ascii) : ascii :=
  let n := nat_of_ascii c in
  if (Nat.leb 65 n && Nat.leb n 90)
     || (Nat.leb 192 n && Nat.leb n 222 && negb (Nat.eqb n 215))
  then ascii_of_nat (n + 32) else c.

(** [c.isdigit()] at the code points below 256: 0 to 9 and the
    superscripts two, three and one. *)
Definition isdigit (c : ascii) : bool :=
  let n := nat_of_ascii c in
  (Nat.leb 48 n && Nat.leb n 57) || Nat.eqb n 178 || Nat.eqb n 179
  || Nat.eqb n 185.

End PyChar.

(** [s.lower()] *)
Fixpoint str_lower (s : string) : string :=
  match s with
  | EmptyString => EmptyString
  | String c s' => String (PyChar.lower c) (str_lower s')
  end.

(** [s.isdigit()]: the string is not empty and all its characters are
    digits. *)
Fixpoint all_digits (s : string) : bool :=
  match s with
  | EmptyString => true
  | String c s' => PyChar.isdigit c && all_digits s'
  end.

Definition str_isdigit (s : string) : bool :=
  negb (PyStr.is_empty s) && all_digits s.

(** ** utils/validators.py: validate_quality *)

(** What a click callback gives back: the value, or [click.BadParameter]
    with its message. *)
Inductive checked (A : Type) : Type :=
| Accepted (a : A)
| BadParameter (msg : string).
Arguments Accepted {A} a.
Arguments BadParameter {A} msg.

(** [validate_quality(ctx, param, value)]; [value] is [None] when the
    option is not given. The [BadParameter] raised for the range is not a
    [ValueError] and leaves the [try] as it is. *)
Definition validate_quality (value : option string) : checked (option string) :=
  match value with
  | None => Accepted None
  | Some v =>
      match PyInt.parse v with
      | Some quality =>
          if (quality <? 0)%Z || (320 <? quality)%Z
          then BadParameter "Quality must be between 0 and 320"
          else Accepted (Some (PyInt.to_str quality))
      | None => BadParameter "Quality must be a number"
      end
  end.

Lemma parse_to_str_in_range (q : Z) :
  (0 <= q <= 320)%Z -> PyInt.parse (PyInt.to_str q) = Some q.
Proof.
  intros Hq.
  assert (Hall : forallb (fun n => bool_decide
                            (PyInt.parse (PyInt.to_str (Z.of_nat n))
                             = Some (Z.of_nat n)))
                   (seq 0 321) = true) by (vm_compute; reflexivity).
  rewrite forallb_forall in Hall.
  specialize (Hall (Z.to_nat q)).
  rewrite Z2Nat.id in Hall by lia.
  assert (Hin : In (Z.to_nat q) (seq 0 321)) by (apply in_seq; lia).
  apply Hall in Hin. apply bool_decide_eq_true in Hin. exact Hin.
Qed.

(** X10. [validate_quality] accepts a given value exactly when [int]
    reads it as a number from 0 to 320, and then returns that number
    written by [str]: blanks, a sign, leading zeros and underscores are
    gone. What it returns it accepts again, unchanged. *)
Theorem validate_quality_accepts_0_to_320 :
  (forall v out,
     validate_quality (Some v) = Accepted out <->
     exists q, PyInt.parse v = Some q /\ (0 <= q <= 320)%Z
               /\ out = Some (PyInt.to_str q))
  /\ (forall v out,
        validate_quality (Some v) = Accepted (Some out) ->
        validate_quality (Some out) = Accepted (Some out))
  /\ validate_quality None = Accepted None.
Proof.
  assert (HA : forall v out,
             validate_quality (Some v) = Accepted out <->
             exists q, PyInt.parse v = Some q /\ (0 <= q <= 320)%Z
                       /\ out = Some (PyInt.to_str q)).
  { intros v out. unfold validate_quality.
    destruct (PyInt.parse v) as [q|].
    - destruct (Z.ltb_spec q 0); simpl.
      + split; [discriminate | intros (q' & [= <-] & Hq & _); lia].
      + destruct (Z.ltb_spec 320 q).
        * split; [discriminate | intros (q' & [= <-] & Hq & _); lia].
        * split.
          -- intros [= <-]. exists q. repeat split; lia.
          -- intros (q' & [= <-] & _ & ->). reflexivity.
    - split; [discriminate | intros (q & [=] & _)]. }
  split; [exact HA|]. split; [|reflexivity].
  intros v out Hv. apply HA in Hv as (q & _ & Hq & [= ->]).
  apply HA. exists q. split; [apply parse_to_str_in_range, Hq | auto].
Qed.

(** A quality given with blanks, a sign, an underscore and leading zeros. *)
Example quality_is_normalised :
  validate_quality (Some " +01_92 ") = Accepted (Some "192").
Proof. vm_compute. reflexivity. Qed.

Lemma validate_quality_witness :
  validate_quality (Some "192") = Accepted (Some "192").
Proof.
  apply (proj1 (proj2 validate_quality_accepts_0_to_320) " +01_92 " "192").
  vm_compute. reflexivity.
Defined.

(* ===================================================================== *)
(** * core/config.py *)
(* ===================================================================== *)

(** The values of the settings: [None], booleans, integers, strings, and
    the dictionary of filename templates. *)
Inductive setting : Type :=
| VNone
| VBool (b : bool)
| VInt (n : Z)
| VStr (s : string)
| VTemplates (d : PyDict.t string).

#[global] Instance setting_eq_dec : EqDecision setting.
Proof. solve_decision. Defined.

(** The content of the configuration file: text that cannot be read or
    is not JSON, or the JSON object as [json.load] returns it, with
    values of the kinds above (a file that holds JSON which is no object,
    or other kinds of values, is not covered). *)
Inductive config_file : Type :=
| ConfigUnparsable
| ConfigJson (user_config : PyDict.t setting).

(** What the configuration code prints. *)
Inductive notice : Type :=
| WarnNotLoaded      (* "Warning: Could not load config file: {e}" *)
| ErrorNotSaved      (* "Error: Could not save config file: {e}" *)
| SaidSet (key : string) (value : setting)   (* "Set {key} = {value}" *)
| SaidKeyError (key : string).               (* "Invalid configuration key: {key}" *)

(** [KeyError(f"Invalid configuration key: {key}")] *)
Inductive key_error : Type := KeyError (key : string).

Section Config.

(** [str(Path.home() / 'dev' / 'music_rip' / 'outputs')] *)
Variable home_outputs : string.

(** [Config.DEFAULTS] *)
Definition DEFAULTS : PyDict.t setting :=
  [("output_directory", VStr home_outputs);
   ("create_output_dir", VBool true);
   ("audio_quality", VStr "192");
   ("audio_format", VStr "mp3");
   ("keep_video", VBool false);
   ("filename_template", VStr "%(title)s");
   ("sanitize_filenames", VBool true);
   ("restrict_filenames", VBool false);
   ("download_playlists", VBool false);
   ("playlist_start", VInt 1);
   ("playlist_end", VNone);
   ("playlist_items", VNone);
   ("overwrite_existing", VBool false);
   ("continue_on_error", VBool true);
   ("quiet_mode", VBool false);
   ("verbose_mode", VBool false);
   ("concurrent_downloads", VInt 1);
   ("rate_limit", VNone);
   ("retries", VInt 3);
   ("embed_metadata", VBool true);
   ("embed_thumbnail", VBool true);
   ("write_info_json", VBool false);
   ("extract_audio", VBool true);
   ("audio_post_processor", VStr "ffmpeg");
   ("filename_templates",
    VTemplates [("default", "%(title)s");
                ("detailed", "%(title)s - %(uploader)s");
                ("dated", "%(upload_date)s - %(title)s");
                ("playlist", "%(playlist_index)s - %(title)s");
                ("full", "%(uploader)s - %(title)s [%(id)s]")])].

(** The loop of [load]: [for key, value in user_config.items(): if key in
    self.DEFAULTS: self._config[key] = value]. *)
Fixpoint load_items (items : PyDict.t setting) (c : PyDict.t setting)
  : PyDict.t setting :=
  match items with
  | [] => c
  | (key, value) :: rest =>
      load_items rest
        (if PyDict.mem key DEFAULTS then PyDict.set key value c else c)
  end.

(** [Config.load]: the new [_config] and what was printed. *)
Definition config_load (c : PyDict.t setting) (disk : option config_file)
  : PyDict.t setting * list notice :=
  match disk with
  | None => (c, [])
  | Some ConfigUnparsable => (c, [WarnNotLoaded])
  | Some (ConfigJson user_config) => (load_items user_config c, [])
  end.

(** [Config.__init__]: [self._config = self.DEFAULTS.copy()], then
    [self.load()]. (The [mkdir] of the configuration directory is not
    part of the model.) *)
Definition Config_init (disk : option config_file)
  : PyDict.t setting * list notice :=
  config_load DEFAULTS disk.

(** [Config.save]: the new content of the file and what was printed. *)
Definition config_save (c : PyDict.t setting) (w : write_event)
    (disk : option config_file) : option config_file * list notice :=
  match w with
  | WriteOk => (Some (ConfigJson c), [])
  | IOErrorBeforeOpen => (disk, [ErrorNotSaved])
  | IOErrorWhileWriting => (Some ConfigUnparsable, [ErrorNotSaved])
  end.

(** [Config.get(key, default)] *)
Definition config_get (key : string) (dflt : setting) (c : PyDict.t setting)
  : setting :=
  match PyDict.get key c with Some v => v | None => dflt end.

(** [Config.set(key, value)] *)
Definition config_set (key : string) (value : setting) (c : PyDict.t setting)
  : PyDict.t setting + key_error :=
  if PyDict.mem key DEFAULTS then inl (PyDict.set key value c)
  else inr (KeyError key).

(** [Config.update(updates)]: the settings are assigned one by one; the
    [KeyError] of the first invalid key ends the loop, and what was
    assigned before stays assigned. *)
Fixpoint config_update (updates : PyDict.t setting) (c : PyDict.t setting)
  : PyDict.t setting * option key_error :=
  match updates with
  | [] => (c, None)
  | (key, value) :: rest =>
      match config_set key value c with
      | inl c' => config_update rest c'
      | inr e => (c, Some e)
      end
  end.

(** [Config.reset(key)] *)
Definition config_reset (key : option string) (c : PyDict.t setting)
  : PyDict.t setting + key_error :=
  match key with
  | None => inl DEFAULTS
  | Some k =>
      match PyDict.get k DEFAULTS with
      | Some dv => inl (PyDict.set k dv c)
      | None => inr (KeyError k)
      end
  end.

(** The keys of a configuration are those of [DEFAULTS], in their order. *)
Definition has_default_keys (c : PyDict.t setting) : Prop :=
  PyDict.keys c = PyDict.keys DEFAULTS.

End Config.

(** ** Properties of the configuration *)

Lemma mem_same_keys {V W} (k : string) (c : PyDict.t V) (d : PyDict.t W) :
  PyDict.keys c = PyDict.keys d -> PyDict.mem k c = PyDict.mem k d.
Proof.
  intros Hk. destruct (PyDict.mem k d) eqn:Hd.
  - apply mem_In_keys. rewrite Hk. apply mem_In_keys, Hd.
  - destruct (PyDict.mem k c) eqn:Hc; [|reflexivity].
    apply mem_In_keys in Hc. rewrite Hk in Hc. apply mem_In_keys in Hc.
    congruence.
Qed.

Lemma set_restores {V} (k : string) (v d : V) (c : PyDict.t V) :
  PyDict.get k c = Some d -> PyDict.set k d (PyDict.set k v c) = c.
Proof.
  induction c as [|[k' v'] c IH]; simpl; [discriminate|].
  destruct (String.eqb k k') eqn:Hk; simpl; rewrite Hk.
  - intros [= ->]. reflexivity.
  - intros H. rewrite IH by assumption. reflexivity.
Qed.

Lemma set_behind {V} (k : string) (v b : V) (pre bs : PyDict.t V) :
  ~ In k (PyDict.keys pre) ->
  PyDict.set k v (pre ++ (k, b) :: bs) = pre ++ (k, v) :: bs.
Proof.
  induction pre as [|[k' v'] pre IH]; simpl; intros Hk.
  - rewrite String.eqb_refl. reflexivity.
  - destruct (String.eqb_spec k k') as [->|Hne]; [tauto|].
    rewrite IH by tauto. reflexivity.
Qed.

Section ConfigProperties.
Variable home_outputs : string.

#[local] Abbreviation D := (DEFAULTS home_outputs).

Lemma default_keys_differ : NoDup (PyDict.keys D).
Proof.
  apply (bool_decide_unpack _). vm_compute. exact I.
Qed.




(** The value found under a key after the loop of [load]. *)
Lemma get_load_items k items : forall c,
  NoDup (PyDict.keys items) ->
  PyDict.get k (load_items home_outputs items c) =
  match PyDict.get k items with
  | Some v => if PyDict.mem k D then Some v else PyDict.get k c
  | None => PyDict.get k c
  end.
Proof.
  induction items as [|[k0 v0] items IH]; intros c Hnd; [reflexivity|].
  unfold PyDict.keys in Hnd. simpl in Hnd.
  apply NoDup_cons in Hnd as [Hk0 Hnd].
  cbn [load_items PyDict.get]. rewrite (IH _ Hnd).
  destruct (String.eqb_spec k k0) as [->|Hne].
  - assert (Hnone : PyDict.get k0 items = None).
    { destruct (PyDict.get k0 items) eqn:Hg; [|reflexivity].
      exfalso. apply Hk0, list_elem_of_In. apply (mem_In_keys k0 items).
      unfold PyDict.mem. rewrite Hg. reflexivity. }
    rewrite Hnone. destruct (PyDict.mem k0 D); [apply get_set_same|reflexivity].
  - assert (Hsame : PyDict.get k
                      (if PyDict.mem k0 D then PyDict.set k0 v0 c else c)
                    = PyDict.get k c).
    { destruct (PyDict.mem k0 D); [apply get_set_other, Hne | reflexivity]. }
    rewrite Hsame. reflexivity.
Qed.

(** Loading the items of a configuration over one with the same keys
    gives that configuration. *)
Lemma load_items_same_keys items : forall base pre,
  PyDict.keys items = PyDict.keys base ->
  NoDup (PyDict.keys items) ->
  (forall k, In k (PyDict.keys items) -> PyDict.mem k D = true) ->
  (forall k, In k (PyDict.keys pre) -> ~ In k (PyDict.keys items)) ->
  load_items home_outputs items (pre ++ base) = pre ++ items.
Proof.
  induction items as [|[k v] items IH]; intros base pre Hkeys Hnd Hvalid Hpre.
  - destruct base; [reflexivity | discriminate].
  - destruct base as [|[k' b] base]; [discriminate|].
    unfold PyDict.keys in *. simpl in Hkeys, Hnd.
    injection Hkeys as <- Hkeys.
    apply NoDup_cons in Hnd as [Hk Hnd].
    cbn [load_items]. rewrite (Hvalid k) by (simpl; auto).
    rewrite set_behind
      by (intros Hin; apply (Hpre k Hin); simpl; auto).
    change (pre ++ (k, v) :: base) with (pre ++ [(k, v)] ++ base).
    rewrite app_assoc, (IH base (pre ++ [(k, v)]) Hkeys Hnd).
    + rewrite <- app_assoc. reflexivity.
    + intros k1 Hk1. apply Hvalid. simpl. auto.
    + intros k1 Hk1 Hin. rewrite map_app in Hk1.
      apply in_app_or in Hk1 as [Hk1|[<-|[]]].
      * apply (Hpre k1 Hk1). simpl. auto.
      * apply Hk, list_elem_of_In, Hin.
Qed.


(** X12. [set] accepts exactly the keys of [DEFAULTS]. After an accepted
    [set], [get] returns the new value for that key and what it returned
    before for every other key; a refused [set] raises [KeyError] with
    the key. *)
Theorem config_set_then_get (c : PyDict.t setting) (k : string) (v : setting) :
  (PyDict.mem k D = true ->
   exists c',
     config_set home_outputs k v c = inl c'
     /\ (forall dflt, config_get k dflt c' = v)
     /\ (forall k' dflt, k' <> k -> config_get k' dflt c' = config_get k' dflt c))
  /\ (PyDict.mem k D = false ->
      config_set home_outputs k v c = inr (KeyError k)).
Proof.
  unfold config_set, config_get. split; intros Hk; rewrite Hk; [|reflexivity].
  eexists. split; [reflexivity|]. split.
  - intros dflt. rewrite get_set_same. reflexivity.
  - intros k' dflt Hne. rewrite get_set_other by assumption. reflexivity.
Qed.

(** X13. [update] is not all-or-nothing: it assigns the settings in their
    order and stops with the [KeyError] of the first key that is no
    setting; the settings before it stay assigned, the ones behind it are
    not looked at. When every key is a setting, all are assigned. *)
Theorem config_update_stops_at_first_invalid_key
    (pre post : PyDict.t setting) (k : string) (v : setting)
    (c : PyDict.t setting) :
  Forall (fun e => PyDict.mem e.1 D = true) pre ->
  (config_update home_outputs pre c).2 = None
  /\ (config_update home_outputs pre c).1
     = fold_left (fun acc e => PyDict.set e.1 e.2 acc) pre c
  /\ (PyDict.mem k D = false ->
      config_update home_outputs (pre ++ (k, v) :: post) c
      = (fold_left (fun acc e => PyDict.set e.1 e.2 acc) pre c,
         Some (KeyError k))).
Proof.
  revert c. induction pre as [|[k0 v0] pre IH]; intros c Hpre.
  - split; [reflexivity|]. split; [reflexivity|].
    intros Hk. cbn [app config_update fold_left]. unfold config_set.
    rewrite Hk. reflexivity.
  - apply Forall_cons in Hpre as [Hk0 Hpre]. simpl in Hk0.
    simpl. unfold config_set. rewrite Hk0. apply IH, Hpre.
Qed.

(** X14. Resetting a key after setting it undoes the [set] when the
    setting had its default value before, and leaves every other setting
    as it was; a reset without a key gives [DEFAULTS] back. *)
Theorem config_reset_undoes_set (c : PyDict.t setting) (k : string)
    (v dv : setting) :
  PyDict.get k D = Some dv ->
  PyDict.get k c = Some dv ->
  exists c',
    config_set home_outputs k v c = inl c'
    /\ config_reset home_outputs (Some k) c' = inl c
    /\ config_reset home_outputs None c' = inl D.
Proof.
  intros HD Hc. unfold config_set, config_reset, PyDict.mem. rewrite HD.
  eexists. split; [reflexivity|]. split; [|reflexivity].
  rewrite (set_restores k v dv c Hc). reflexivity.
Qed.

(** X15. A configuration that is saved with a write that goes through is
    the configuration with which the next [Config] starts, and nothing is
    printed on the way. *)
Theorem config_save_then_init (c : PyDict.t setting) (disk : option config_file) :
  has_default_keys home_outputs c ->
  Config_init home_outputs (config_save c WriteOk disk).1 = (c, []).
Proof.
  intros Hc. unfold Config_init, config_save, config_load. cbn [fst]. f_equal.
  apply (load_items_same_keys c D [] Hc).
  - unfold has_default_keys in Hc. rewrite Hc. apply default_keys_differ.
  - intros k Hk. apply mem_In_keys. unfold has_default_keys in Hc.
    rewrite <- Hc. exact Hk.
  - intros k [].
Qed.

(** X16. What a new [Config] holds after reading a configuration file:
    for a key of [DEFAULTS] the value of the file when the file has the
    key and the default otherwise; for any other key nothing, whether the
    file has it or not. *)
Theorem config_init_reads_only_settings (u : PyDict.t setting) (k : string) :
  NoDup (PyDict.keys u) ->
  PyDict.get k (Config_init home_outputs (Some (ConfigJson u))).1 =
  match PyDict.get k D with
  | Some dv => Some (match PyDict.get k u with Some v => v | None => dv end)
  | None => None
  end.
Proof.
  intros Hnd. unfold Config_init, config_load. cbn [fst].
  rewrite (get_load_items k u D Hnd). unfold PyDict.mem.
  destruct (PyDict.get k u), (PyDict.get k D); reflexivity.
Qed.

End ConfigProperties.

(** A configuration file with a setting, and a key that is none. *)
Definition some_user_config : PyDict.t setting :=
  [("audio_format", VStr "flac"); ("colour", VStr "red")].

Lemma config_set_then_get_witness :
  exists c',
    config_set "/home/u/out" "retries" (VInt 5) (DEFAULTS "/home/u/out") = inl c'
    /\ (forall dflt, config_get "retries" dflt c' = VInt 5)
    /\ (forall k' dflt, k' <> "retries" ->
          config_get k' dflt c' = config_get k' dflt (DEFAULTS "/home/u/out")).
Proof.
  apply (proj1 (config_set_then_get "/home/u/out" (DEFAULTS "/home/u/out")
                  "retries" (VInt 5))).
  reflexivity.
Defined.

Lemma config_update_witness :
  config_update "/home/u/out"
    ([("retries", VInt 5)] ++ ("colour", VStr "red") :: [("audio_format", VStr "flac")])
    (DEFAULTS "/home/u/out")
  = (fold_left (fun acc e => PyDict.set e.1 e.2 acc) [("retries", VInt 5)]
       (DEFAULTS "/home/u/out"),
     Some (KeyError "colour")).
Proof.
  apply (proj2 (proj2 (config_update_stops_at_first_invalid_key "/home/u/out"
                         [("retries", VInt 5)] [("audio_format", VStr "flac")]
                         "colour" (VStr "red") (DEFAULTS "/home/u/out")
                         ltac:(repeat constructor)))).
  reflexivity.
Defined.

Lemma config_reset_witness :
  exists c',
    config_set "/home/u/out" "retries" (VInt 5) (DEFAULTS "/home/u/out") = inl c'
    /\ config_reset "/home/u/out" (Some "retries") c'
       = inl (DEFAULTS "/home/u/out")
    /\ config_reset "/home/u/out" None c' = inl (DEFAULTS "/home/u/out").
Proof.
  apply (config_reset_undoes_set "/home/u/out" (DEFAULTS "/home/u/out")
           "retries" (VInt 5) (VInt 3)); reflexivity.
Defined.

Lemma config_save_then_init_witness :
  Config_init "/home/u/out"
    (config_save (PyDict.set "retries" (VInt 5) (DEFAULTS "/home/u/out"))
       WriteOk None).1
  = (PyDict.set "retries" (VInt 5) (DEFAULTS "/home/u/out"), []).
Proof.
  apply (config_save_then_init "/home/u/out"
           (PyDict.set "retries" (VInt 5) (DEFAULTS "/home/u/out")) None).
  reflexivity.
Defined.

Lemma config_init_reads_witness :
  PyDict.get "colour"
    (Config_init "/home/u/out" (Some (ConfigJson some_user_config))).1
  = None.
Proof.
  apply (config_init_reads_only_settings "/home/u/out" some_user_config
           "colour").
  apply (bool_decide_unpack _). vm_compute. exact I.
Defined.

(* ===================================================================== *)
(** * cli/config_manager.py *)
(* ===================================================================== *)

(** The conversion at the head of the [set] command: "true" and "false"
    in any letter case become booleans, a string of digits goes through
    [int], anything else stays a string. [None] is the [ValueError] of
    [int], which nothing catches. *)
Definition convert (value : string) : option setting :=
  let low := str_lower value in
  if String.eqb low "true" || String.eqb low "false" then
    Some (VBool (String.eqb low "true"))
  else if str_isdigit value then option_map VInt (PyInt.parse value)
  else Some (VStr value).

(** How a command of the configuration manager ends: normally, with the
    configuration, the configuration file and what was printed; or with
    an exception that nothing catches. *)
Inductive command_result : Type :=
| Finished (c : PyDict.t setting) (disk : option config_file)
           (out : list notice)
| Crashed.

(** The [set] command. *)
Definition set_command (home_outputs : string) (key value : string)
    (w : write_event) (c : PyDict.t setting) (disk : option config_file)
  : command_result :=
  match convert value with
  | None => Crashed
  | Some v =>
      match config_set home_outputs key v c with
      | inl c' =>
          let '(disk', out) := config_save c' w disk in
          Finished c' disk' (out ++ [SaidSet key v])
      | inr (KeyError k) => Finished c disk [SaidKeyError k]
      end
  end.

(** ** Properties of the configuration manager *)

(** A character that [isdigit] accepts is no blank, no sign and no
    underscore, and [lower] leaves it different from "t" and "f". *)
Lemma isdigit_char (c : ascii) :
  PyChar.isdigit c = true ->
  PyInt.isspace c = false /\ Ascii.eqb c "+" = false
  /\ Ascii.eqb c "-" = false /\ Ascii.eqb c "_" = false
  /\ Ascii.eqb (PyChar.lower c) "t" = false
  /\ Ascii.eqb (PyChar.lower c) "f" = false.
Proof.
  destruct c as [[] [] [] [] [] [] [] []]; vm_compute; intros H;
    try discriminate H; repeat split.
Qed.

Lemma rstrip_all_digits (s : string) :
  all_digits s = true -> PyInt.rstrip s = s.
Proof.
  induction s as [|c s IH]; simpl; [reflexivity|].
  intros H. apply andb_true_iff in H as [Hc Hs].
  destruct (isdigit_char c Hc) as (-> & _). rewrite IH by assumption.
  reflexivity.
Qed.

Lemma digits_stop_at_other_digit (s : string) :
  all_digits s = true ->
  (exists c, In c (list_ascii_of_string s) /\ PyInt.is_digit c = false) ->
  forall acc b, PyInt.digits acc b s = None.
Proof.
  induction s as [|c s IH]; simpl; intros Hall (c0 & Hin & Hc0) acc b;
    [destruct Hin|].
  apply andb_true_iff in Hall as [Hc Hs].
  destruct (PyInt.is_digit c) eqn:Hd.
  - apply IH; [assumption|]. exists c0. split; [|assumption].
    destruct Hin as [<-|Hin]; [congruence | assumption].
  - destruct (isdigit_char c Hc) as (_ & _ & _ & -> & _). reflexivity.
Qed.

Lemma parse_all_digits (v : string) :
  str_isdigit v = true ->
  (exists c, In c (list_ascii_of_string v) /\ PyInt.is_digit c = false) ->
  PyInt.parse v = None.
Proof.
  unfold str_isdigit. intros H Hbad. apply andb_true_iff in H as [Hne Hall].
  destruct v as [|c v]; [discriminate|].
  pose proof Hall as Hall'. simpl in Hall'.
  apply andb_true_iff in Hall' as [Hc _].
  destruct (isdigit_char c Hc) as (Hsp & Hplus & Hminus & _).
  unfold PyInt.parse. cbn [PyInt.lstrip]. rewrite Hsp.
  rewrite (rstrip_all_digits _ Hall), Hplus, Hminus.
  rewrite (digits_stop_at_other_digit _ Hall Hbad).
  destruct (Nat.ltb _ _); reflexivity.
Qed.

Lemma lower_all_digits (v : string) :
  str_isdigit v = true ->
  String.eqb (str_lower v) "true" || String.eqb (str_lower v) "false" = false.
Proof.
  unfold str_isdigit. intros H. apply andb_true_iff in H as [Hne Hall].
  destruct v as [|c v]; [discriminate|]. simpl in Hall.
  apply andb_true_iff in Hall as [Hc _].
  destruct (isdigit_char c Hc) as (_ & _ & _ & _ & Ht & Hf).
  cbn [str_lower String.eqb]. rewrite Ht, Hf. reflexivity.
Qed.

(** X17. The [set] command takes a value for a number when [isdigit]
    says so, and then calls [int] on it; [isdigit] also accepts the
    superscript digits, which [int] refuses. For such a value the command
    ends with the [ValueError], whatever the key: nothing is set, saved
    or printed. *)
Theorem set_command_crashes_on_a_superscript_digit
    (home_outputs key value : string) (w : write_event)
    (c : PyDict.t setting) (disk : option config_file) :
  str_isdigit value = true ->
  (exists ch, In ch (list_ascii_of_string value) /\ PyInt.is_digit ch = false) ->
  set_command home_outputs key value w c disk = Crashed.
Proof.
  intros Hd Hbad. unfold set_command, convert.
  rewrite (lower_all_digits value Hd), Hd, (parse_all_digits value Hd Hbad).
  reflexivity.
Qed.

(** The value "3" followed by a superscript two. *)
Definition three_squared : string := String "3" (String (ascii_of_nat 178) "").

Lemma set_command_crash_witness :
  set_command "/home/u/out" "retries" three_squared WriteOk
    (DEFAULTS "/home/u/out") None = Crashed.
Proof.
  apply (set_command_crashes_on_a_superscript_digit "/home/u/out" "retries"
           three_squared WriteOk (DEFAULTS "/home/u/out") None).
  - reflexivity.
  - exists (ascii_of_nat 178). split; [right; left|]; reflexivity.
Defined.

(** A configuration with the keys of [DEFAULTS] that is written to the
    file is what the next [Config] reads. *)
Lemma saved_config_is_read_back (h : string) (c : PyDict.t setting) :
  has_default_keys h c ->
  (Config_init h (Some (ConfigJson c))).1 = c.
Proof.
  intros Hc. unfold Config_init, config_load. cbn [fst].
  apply (load_items_same_keys h c (DEFAULTS h) [] Hc).
  - unfold has_default_keys in Hc. rewrite Hc. apply default_keys_differ.
  - intros k Hk. apply mem_In_keys. unfold has_default_keys in Hc.
    rewrite <- Hc. exact Hk.
  - intros k [].
Qed.

(** X18. The [set] command on a key of [DEFAULTS]: the converted value is
    assigned, the whole configuration is written, and a [Config] built
    afterwards from the file holds the new value. When the file cannot be
    written the command still says "Set ...", after the error message,
    and the file is what it was. On any other key the command prints the
    [KeyError] and changes neither the configuration nor the file. *)
Theorem set_command_persists (h key value : string) (v : setting)
    (c : PyDict.t setting) (disk : option config_file) :
  has_default_keys h c ->
  convert value = Some v ->
  (PyDict.mem key (DEFAULTS h) = true ->
   set_command h key value WriteOk c disk
   = Finished (PyDict.set key v c) (Some (ConfigJson (PyDict.set key v c)))
       [SaidSet key v]
   /\ (forall dflt,
         config_get key dflt
           (Config_init h (Some (ConfigJson (PyDict.set key v c)))).1 = v)
   /\ set_command h key value IOErrorBeforeOpen c disk
      = Finished (PyDict.set key v c) disk [ErrorNotSaved; SaidSet key v])
  /\ (PyDict.mem key (DEFAULTS h) = false ->
      forall w, set_command h key value w c disk
                = Finished c disk [SaidKeyError key]).
Proof.
  intros Hc Hv. unfold set_command, config_set. rewrite Hv.
  split; intros Hk; rewrite Hk; [|reflexivity].
  split; [reflexivity|]. split; [|reflexivity].
  intros dflt. rewrite saved_config_is_read_back.
  - unfold config_get. rewrite get_set_same. reflexivity.
  - unfold has_default_keys in *.
    rewrite keys_set, (mem_same_keys key c (DEFAULTS h) Hc), Hk. exact Hc.
Qed.

(** [config set audio_quality 320]: the default is the string "192", the
    value stored and read back is the integer 320. *)
Lemma set_command_persists_witness :
  set_command "/home/u/out" "audio_quality" "320" WriteOk
    (DEFAULTS "/home/u/out") None
  = Finished (PyDict.set "audio_quality" (VInt 320) (DEFAULTS "/home/u/out"))
      (Some (ConfigJson
               (PyDict.set "audio_quality" (VInt 320) (DEFAULTS "/home/u/out"))))
      [SaidSet "audio_quality" (VInt 320)]
  /\ (forall dflt,
        config_get "audio_quality" dflt
          (Config_init "/home/u/out"
             (Some (ConfigJson
                      (PyDict.set "audio_quality" (VInt 320)
                         (DEFAULTS "/home/u/out"))))).1 = VInt 320)
  /\ set_command "/home/u/out" "audio_quality" "320" IOErrorBeforeOpen
       (DEFAULTS "/home/u/out") None
     = Finished (PyDict.set "audio_quality" (VInt 320) (DEFAULTS "/home/u/out"))
         None [ErrorNotSaved; SaidSet "audio_quality" (VInt 320)].
Proof.
  apply (proj1 (set_command_persists "/home/u/out" "audio_quality" "320"
                  (VInt 320) (DEFAULTS "/home/u/out") None eq_refl eq_refl)).
  reflexivity.
Defined.

(* ===================================================================== *)
(** * cli/download.py *)
(* ===================================================================== *)

(** The command line of the single-run command; [urls] is what click
    collects from the arguments, [quality] what [validate_quality]
    returned. *)
Record single_args : Type := SingleArgs {
  s_urls : list string;
  s_output : option string;
  s_quality : option string;
  s_format : option string;
  s_keep_video : bool;
  s_playlist : bool;
  s_filename : option string;
  s_verbose : bool
}.

(** Each message of [download.py]. *)
Inductive said : Type :=
| SaidBanner                              (* "YouTube Audio Downloader", rule *)
| SaidOptions (opts : options)            (* the five lines under [if verbose] *)
| SaidProcessing (i total : nat) (url : string)
                                          (* "[{i}/{len(urls)}] Processing URL: {url}" *)
| SaidDownloaded (success total : nat)    (* rule, "Successfully downloaded: {n}/{len(urls)}" *)
| SaidFailedDownloads                     (* "Failed downloads:" *)
| SaidFailedDownload (url : string).      (* "   - {url}" *)

(** The variables of the loop of [main]: the counter, the list of failed
    URLs, what was echoed and the calls of [download_audio] made, each
    with its URL, options and filename template. *)
Record single_state : Type := SingleState {
  s_success : nat;
  s_failed : list string;
  s_out : list said;
  s_calls : list (string * options * option string)
}.

(** The [for i, url in enumerate(urls, 1)] loop from position [i] on. An
    exception of [download_audio] is not caught: it ends the loop, and
    the state is the one reached. *)
Fixpoint single_loop (fetch : nat -> fetch_event) (opts : options)
    (filename : option string) (total i : nat) (urls : list string)
    (st : single_state) : single_state * option exn :=
  match urls with
  | [] => (st, None)
  | url :: rest =>
      let out := if Nat.ltb 1 total
                 then s_out st ++ [SaidProcessing i total url] else s_out st in
      let cs := s_calls st ++ [(url, opts, filename)] in
      match download_audio (fetch i) url opts with
      | Return true =>
          single_loop fetch opts filename total (S i) rest
            (SingleState (S (s_success st)) (s_failed st) out cs)
      | Return false =>
          single_loop fetch opts filename total (S i) rest
            (SingleState (s_success st) (s_failed st ++ [url]) out cs)
      | Raise e => (SingleState (s_success st) (s_failed st) out cs, Some e)
      end
  end.

(** How the command ends: click refuses a command line without a URL
    (the argument [urls] is declared with [nargs=-1, required=True]) and
    exits with status 2 before the body of [main] runs; or [main] ends
    with [sys.exit(code)]; or it ends with an exception that came out of
    [download_audio]. The last two carry the state of the loop and the
    in-memory configuration. *)
Inductive single_result : Type :=
| SingleUsageError
| SingleExit (code : Z) (st : single_state) (settings : PyDict.t setting)
| SingleUncaught (e : exn) (st : single_state) (settings : PyDict.t setting).

(** The options given to every call of [download_audio]: the command
    line, with the configured defaults where it is silent. *)
Definition single_options (cfg : config) (a : single_args) : options :=
  Options (default (default_output_dir cfg) (s_output a))
          (default (default_quality cfg) (s_quality a))
          (default (default_format cfg) (s_format a))
          (s_keep_video a) (s_playlist a) (s_verbose a).

(** [main] of [download.py], as the click command runs it: without a
    URL the command line is refused. In the body, the three flags are
    never [None], so the three assignments to the configuration are
    always made; their keys are keys of [DEFAULTS], so [set] does not
    raise. [cfg] is what the [get_default_...] functions return. *)
Definition single_main (cfg : config) (settings : PyDict.t setting)
    (fetch : nat -> fetch_event) (a : single_args) : single_result :=
  if bool_decide (s_urls a = []) then SingleUsageError else
  let opts := single_options cfg a in
  let settings :=
    PyDict.set "verbose_mode" (VBool (s_verbose a))
      (PyDict.set "keep_video" (VBool (s_keep_video a))
         (PyDict.set "download_playlists" (VBool (s_playlist a)) settings)) in
  let out := [SaidBanner] ++ (if s_verbose a then [SaidOptions opts] else []) in
  let total := length (s_urls a) in
  match single_loop fetch opts (s_filename a) total 1 (s_urls a)
          (SingleState 0 [] out []) with
  | (st, Some e) => SingleUncaught e st settings
  | (st, None) =>
      let out :=
        if Nat.ltb 1 total then
          s_out st ++ [SaidDownloaded (s_success st) total]
          ++ (if bool_decide (s_failed st = []) then []
              else SaidFailedDownloads :: map SaidFailedDownload (s_failed st))
        else s_out st in
      SingleExit (if bool_decide (s_failed st = []) then 0%Z else 1%Z)
        (SingleState (s_success st) (s_failed st) out (s_calls st)) settings
  end.

(** yt-dlp finishes the download inside the [try] block of [download]. *)
Definition ends_well (ev : fetch_event) : bool :=
  match body ev with YdlDone => true | _ => false end.

(** Of the URLs at the positions [i], [i+1], ... those whose download
    does not end well, in their order. *)
Definition unfinished (fetch : nat -> fetch_event) (i : nat)
    (urls : list string) : list string :=
  map snd (List.filter (fun e => negb (ends_well (fetch e.1)))
             (imap (fun k url => (i + k, url)) urls)).

(** Three URLs on the command line, with a quality. *)
Definition three_args : single_args :=
  SingleArgs ["http://a"; "http://b"; "http://c"] None (Some "320") None
    false false None false.

(** ** Properties of the single-run command *)

Section SingleLoop.
Variables (fetch : nat -> fetch_event) (opts : options)
          (filename : option string) (total : nat).

#[local] Abbreviation sloop := (single_loop fetch opts filename total).

Lemma unfinished_cons i url urls :
  unfinished fetch i (url :: urls) =
  (if ends_well (fetch i) then [] else [url]) ++ unfinished fetch (S i) urls.
Proof.
  unfold unfinished. cbn [imap List.filter fst]. rewrite Nat.add_0_r.
  assert (Hext : imap ((fun k u => (i + k, u)) ∘ S) urls
                 = imap (fun k u => (S i + k, u)) urls).
  { apply imap_ext. intros k u _. simpl. f_equal. lia. }
  rewrite Hext. destruct (ends_well (fetch i)); reflexivity.
Qed.

(** The loop over a list after a first part that raised nothing. *)
Lemma single_loop_app pre : forall i rest st,
  sloop i (pre ++ rest) st =
  match sloop i pre st with
  | (st', None) => sloop (i + length pre) rest st'
  | (st', Some e) => (st', Some e)
  end.
Proof.
  induction pre as [|url pre IH]; intros i rest st.
  - simpl. rewrite Nat.add_0_r. reflexivity.
  - cbn [app single_loop length].
    destruct (download_audio (fetch i) url opts) as [[|]|e];
      rewrite ?IH; try reflexivity.
    + replace (S i + length pre) with (i + S (length pre)) by lia. reflexivity.
    + replace (S i + length pre) with (i + S (length pre)) by lia. reflexivity.
Qed.

(** When no call raises, the loop goes over the whole list. *)
Lemma single_loop_runs urls : forall i st,
  (forall j, i <= j < i + length urls -> prologue (fetch j) = None) ->
  exists st',
    sloop i urls st = (st', None)
    /\ s_failed st' = s_failed st ++ unfinished fetch i urls
    /\ s_success st' + length (s_failed st')
       = s_success st + length (s_failed st) + length urls
    /\ s_calls st' = s_calls st ++ map (fun u => (u, opts, filename)) urls.
Proof.
  induction urls as [|url urls IH]; intros i st Hno.
  - exists st. simpl. rewrite !app_nil_r. repeat split; lia.
  - cbn [single_loop]. rewrite unfinished_cons.
    assert (Hi : prologue (fetch i) = None) by (apply Hno; simpl; lia).
    assert (Hrest : forall j, S i <= j < S i + length urls ->
                              prologue (fetch j) = None).
    { intros j Hj. apply Hno. simpl. lia. }
    unfold download_audio, download, ends_well. rewrite Hi.
    destruct (body (fetch i));
      match goal with
      | |- context [sloop (S i) urls ?s] =>
          destruct (IH (S i) s Hrest) as (st' & H1 & H2 & H3 & H4)
      end;
      exists st'; rewrite H1, H2, H4; simpl in *;
      rewrite <- ?app_assoc; simpl;
      (split; [reflexivity|]); (split; [reflexivity|]);
      (split; [|reflexivity]);
      rewrite H2, ?length_app in *; simpl in *; lia.
Qed.

(** The loop prints nothing but "Processing URL" lines. *)
Definition no_summary (m : said) : Prop :=
  match m with SaidDownloaded _ _ => False | _ => True end.

Lemma single_loop_prints_no_summary urls : forall i st,
  Forall no_summary (s_out st) ->
  Forall no_summary (s_out (sloop i urls st).1).
Proof.
  induction urls as [|url urls IH]; intros i st Hst; [exact Hst|].
  cbn [single_loop].
  assert (Hout : Forall no_summary
                   (if Nat.ltb 1 total
                    then s_out st ++ [SaidProcessing i total url]
                    else s_out st)).
  { destruct (Nat.ltb 1 total); [|exact Hst].
    apply Forall_app. split; [exact Hst | repeat constructor]. }
  destruct (download_audio (fetch i) url opts) as [[|]|e];
    try apply IH; exact Hout.
Qed.

(** The first call that raises ends the loop. *)
Lemma single_loop_raises urls k url e i st :
  urls !! k = Some url ->
  (forall j, i <= j < i + k -> prologue (fetch j) = None) ->
  prologue (fetch (i + k)) = Some e ->
  exists st',
    sloop i urls st = (st', Some e)
    /\ s_calls st'
       = s_calls st ++ map (fun u => (u, opts, filename)) (take (S k) urls)
    /\ s_failed st' = s_failed st ++ unfinished fetch i (take k urls)
    /\ s_success st' + length (s_failed st')
       = s_success st + length (s_failed st) + k
    /\ (Forall no_summary (s_out st) -> Forall no_summary (s_out st')).
Proof.
  intros Hk Hno He.
  pose proof (lookup_lt_Some _ _ _ Hk) as Hlt.
  pose proof (single_loop_prints_no_summary urls i st) as Hout.
  assert (Heq : sloop i urls st
                = sloop i (take k urls ++ url :: drop (S k) urls) st)
    by (rewrite take_drop_middle by exact Hk; reflexivity).
  rewrite Heq in *. clear Heq. rewrite single_loop_app in *.
  destruct (single_loop_runs (take k urls) i st)
    as (st' & H1 & H2 & H3 & H4);
    [rewrite length_take_le by lia; exact Hno|].
  rewrite H1 in *. rewrite length_take_le in * by lia.
  cbn [single_loop] in *. unfold download_audio, download in *.
  rewrite He in *. eexists. split; [reflexivity|].
  cbn [s_failed s_success s_calls s_out fst] in *.
  split; [|split; [exact H2|split; [exact H3|exact Hout]]].
  rewrite H4, (take_S_r _ _ _ Hk), map_app, <- app_assoc. reflexivity.
Qed.

End SingleLoop.

(** The command line holds a URL: the body of [main] runs. *)
Lemma single_main_with_urls cfg settings fetch a :
  s_urls a <> [] ->
  single_main cfg settings fetch a =
  let opts := single_options cfg a in
  let settings :=
    PyDict.set "verbose_mode" (VBool (s_verbose a))
      (PyDict.set "keep_video" (VBool (s_keep_video a))
         (PyDict.set "download_playlists" (VBool (s_playlist a)) settings)) in
  let out := [SaidBanner] ++ (if s_verbose a then [SaidOptions opts] else []) in
  let total := length (s_urls a) in
  match single_loop fetch opts (s_filename a) total 1 (s_urls a)
          (SingleState 0 [] out []) with
  | (st, Some e) => SingleUncaught e st settings
  | (st, None) =>
      let out :=
        if Nat.ltb 1 total then
          s_out st ++ [SaidDownloaded (s_success st) total]
          ++ (if bool_decide (s_failed st = []) then []
              else SaidFailedDownloads :: map SaidFailedDownload (s_failed st))
        else s_out st in
      SingleExit (if bool_decide (s_failed st = []) then 0%Z else 1%Z)
        (SingleState (s_success st) (s_failed st) out (s_calls st)) settings
  end.
Proof.
  intros Hurls. unfold single_main.
  rewrite (bool_decide_eq_false_2 _ Hurls). reflexivity.
Qed.

(** X19. Without a URL on the command line, click ends the single-run
    command with a usage error before [main] runs. With at least one URL,
    and when no call of [download_audio] raises, the command calls
    [download_audio] once for every URL, in order, each time with the
    options of the command line completed by the configured defaults and
    with the filename template: the failed URLs are exactly those whose
    download did not end well, the successes and the failures add up to
    the number of URLs, and the exit status is 0 exactly when no URL
    failed, and 1 otherwise. *)
Theorem single_run_counts cfg settings fetch a :
  (s_urls a = [] -> single_main cfg settings fetch a = SingleUsageError)
  /\ (s_urls a <> [] ->
      (forall j, 1 <= j < 1 + length (s_urls a) -> prologue (fetch j) = None) ->
      exists code st settings',
        single_main cfg settings fetch a = SingleExit code st settings'
        /\ s_failed st = unfinished fetch 1 (s_urls a)
        /\ s_success st + length (s_failed st) = length (s_urls a)
        /\ s_calls st
           = map (fun u => (u, single_options cfg a, s_filename a)) (s_urls a)
        /\ (code = 0%Z <-> s_failed st = [])
        /\ (code = 0%Z \/ code = 1%Z)).
Proof.
  split.
  - intros Hnil. unfold single_main. rewrite Hnil. reflexivity.
  - intros Hurls Hno. rewrite (single_main_with_urls _ _ _ _ Hurls). cbv zeta.
    match goal with
    | |- context [single_loop fetch ?o ?f ?t 1 (s_urls a) ?s] =>
        destruct (single_loop_runs fetch o f t (s_urls a) 1 s Hno)
          as (st' & H1 & H2 & H3 & H4); rewrite H1
    end.
    simpl in H2, H3, H4.
    eexists _, _, _. split; [reflexivity|]. cbn [s_failed s_success s_calls].
    split; [exact H2|]. split; [exact H3|]. split; [exact H4|]. split.
    + destruct (bool_decide_reflect (s_failed st' = [])); split; intros;
        try reflexivity; try assumption; try discriminate; contradiction.
    + destruct (bool_decide (s_failed st' = [])); auto.
Qed.

Lemma single_run_counts_witness :
  exists code st settings',
    single_main cfg0 (DEFAULTS "/home/u/out")
      (fetch (scripted [ok; fails; interrupt_inside])) three_args
    = SingleExit code st settings'
    /\ s_failed st
       = unfinished (fetch (scripted [ok; fails; interrupt_inside])) 1
           (s_urls three_args)
    /\ s_success st + length (s_failed st) = length (s_urls three_args)
    /\ s_calls st
       = map (fun u => (u, single_options cfg0 three_args,
                        s_filename three_args)) (s_urls three_args)
    /\ (code = 0%Z <-> s_failed st = [])
    /\ (code = 0%Z \/ code = 1%Z).
Proof.
  apply (proj2 (single_run_counts cfg0 (DEFAULTS "/home/u/out")
                  (fetch (scripted [ok; fails; interrupt_inside])) three_args)).
  - discriminate.
  - intros j Hj. simpl in Hj.
    destruct j as [|[|[|[|j]]]]; try reflexivity; lia.
Defined.

(** The run of that witness: the second URL fails, the third is
    interrupted while yt-dlp works on it; both are listed as failed, all
    three were fetched, and the exit status is 1. *)
Example single_run_of_three :
  match single_main cfg0 (DEFAULTS "/home/u/out")
          (fetch (scripted [ok; fails; interrupt_inside])) three_args with
  | SingleExit code st _ =>
      code = 1%Z /\ s_success st = 1
      /\ s_failed st = ["http://b"; "http://c"]
      /\ s_out st = [SaidBanner;
                     SaidProcessing 1 3 "http://a"; SaidProcessing 2 3 "http://b";
                     SaidProcessing 3 3 "http://c"; SaidDownloaded 1 3;
                     SaidFailedDownloads; SaidFailedDownload "http://b";
                     SaidFailedDownload "http://c"]
  | _ => False
  end.
Proof. vm_compute. auto. Qed.

(** X20. An interrupt that arrives while yt-dlp works on one URL of the
    single-run command does not end the command: [download] turns it
    into a failed download, the URL is listed as failed, every URL of the
    command line is still fetched, and the exit status is 1. *)
Theorem interrupt_does_not_end_the_single_run cfg settings fetch a k url :
  (forall j, 1 <= j < 1 + length (s_urls a) -> prologue (fetch j) = None) ->
  s_urls a !! k = Some url ->
  body (fetch (S k)) = YdlKeyboardInterrupt ->
  exists st settings',
    single_main cfg settings fetch a = SingleExit 1 st settings'
    /\ In url (s_failed st)
    /\ map (fun c => c.1.1) (s_calls st) = s_urls a.
Proof.
  intros Hno Hk Hint.
  rewrite single_main_with_urls
    by (intros Hnil; rewrite Hnil in Hk; discriminate Hk).
  cbv zeta.
  match goal with
  | |- context [single_loop fetch ?o ?f ?t 1 (s_urls a) ?s] =>
      destruct (single_loop_runs fetch o f t (s_urls a) 1 s Hno)
        as (st' & H1 & H2 & H3 & H4); rewrite H1
  end.
  simpl in H2, H4. cbv zeta.
  assert (Hin : In url (s_failed st')).
  { rewrite H2. unfold unfinished. apply in_map_iff. exists (S k, url).
    split; [reflexivity|]. apply filter_In. split.
    - apply list_elem_of_In, elem_of_lookup_imap. exists k, url. auto.
    - unfold ends_well. simpl. rewrite Hint. reflexivity. }
  rewrite bool_decide_eq_false_2
    by (intros Hnil; rewrite Hnil in Hin; exact Hin).
  eexists _, _. split; [reflexivity|]. cbn [s_failed s_calls].
  split; [exact Hin|]. rewrite H4, map_map. simpl. apply map_id.
Qed.

Lemma interrupt_single_run_witness :
  exists st settings',
    single_main cfg0 (DEFAULTS "/home/u/out")
      (fetch (scripted [ok; fails; interrupt_inside])) three_args
    = SingleExit 1 st settings'
    /\ In "http://c" (s_failed st)
    /\ map (fun c => c.1.1) (s_calls st) = s_urls three_args.
Proof.
  apply (interrupt_does_not_end_the_single_run cfg0 (DEFAULTS "/home/u/out")
           (fetch (scripted [ok; fails; interrupt_inside])) three_args 2
           "http://c"); [|reflexivity|reflexivity].
  intros j Hj. simpl in Hj.
  destruct j as [|[|[|[|j]]]]; try reflexivity; lia.
Defined.

(** X21. An exception that comes out of [download_audio] (raised before
    the [try] block of [download]) is caught nowhere in the single-run
    command: the command ends with it at once. The URLs behind the one
    that raised are never fetched, and no summary is printed. (The batch
    runner records such an exception for the URL and goes on.) *)
Theorem exception_ends_the_single_run cfg settings fetch a k url e :
  s_urls a !! k = Some url ->
  (forall j, 1 <= j < 1 + k -> prologue (fetch j) = None) ->
  prologue (fetch (S k)) = Some e ->
  exists st settings',
    single_main cfg settings fetch a = SingleUncaught e st settings'
    /\ map (fun c => c.1.1) (s_calls st) = take (S k) (s_urls a)
    /\ s_failed st = unfinished fetch 1 (take k (s_urls a))
    /\ s_success st + length (s_failed st) = k
    /\ Forall no_summary (s_out st).
Proof.
  intros Hk Hno He.
  rewrite single_main_with_urls
    by (intros Hnil; rewrite Hnil in Hk; discriminate Hk).
  cbv zeta.
  match goal with
  | |- context [single_loop fetch ?o ?f ?t 1 (s_urls a) ?s] =>
      destruct (single_loop_raises fetch o f t (s_urls a) k url e 1 s Hk Hno He)
        as (st' & H1 & H2 & H3 & H4 & H5); rewrite H1
  end.
  simpl in H2, H3, H4, H5.
  eexists _, _. split; [reflexivity|].
  split; [|split; [exact H3|split; [exact H4|]]].
  - rewrite H2, map_map. simpl. apply map_id.
  - apply H5. destruct (s_verbose a); repeat constructor.
Qed.

Lemma exception_single_run_witness :
  exists st settings',
    single_main cfg0 (DEFAULTS "/home/u/out")
      (fetch (scripted [ok; raises (PyException "[Errno 13] Permission denied"); ok]))
      three_args
    = SingleUncaught (PyException "[Errno 13] Permission denied") st settings'
    /\ map (fun c => c.1.1) (s_calls st) = take 2 (s_urls three_args)
    /\ s_failed st
       = unfinished
           (fetch (scripted [ok; raises (PyException "[Errno 13] Permission denied"); ok]))
           1 (take 1 (s_urls three_args))
    /\ s_success st + length (s_failed st) = 1
    /\ Forall no_summary (s_out st).
Proof.
  apply (exception_ends_the_single_run cfg0 (DEFAULTS "/home/u/out")
           (fetch (scripted [ok; raises (PyException "[Errno 13] Permission denied"); ok]))
           three_args 1 "http://b"); [reflexivity| |reflexivity].
  intros j Hj. destruct j as [|[|j]]; try reflexivity; lia.
Defined.


(* ===================================================================== *)
(** * The number of skipped URLs that [main] announces *)
(* ===================================================================== *)

(** Every entry whose URL is in a set of processed URLs that the
    processor already holds is skipped by the loop in resume mode. *)
Lemma loop_skips_at_least E opts sk total (P : gset string) urls :
  forall idx r,
    P ⊆ processed_urls (self r) ->
    interrupted (process_loop E opts sk true total idx urls r) = false ->
    skipped r + length (List.filter (fun e => bool_decide (e.2 ∈ P)) urls)
    <= skipped (process_loop E opts sk true total idx urls r).
Proof.
  induction urls as [|[ln url] urls IH]; intros idx r HP Hni.
  - simpl. lia.
  - rewrite loop_cons in *.
    destruct (process_entry E opts sk true total idx (ln, url) r)
      as [[|] r'] eqn:He; [|apply entry_break in He; congruence].
    destruct (entry_keeps _ _ _ _ _ _ _ _ _ _ He) as (_ & Hmono & _ & _).
    assert (HP' : P ⊆ processed_urls (self r')) by (etransitivity; eassumption).
    specialize (IH (S idx) r' HP' Hni).
    cbn [List.filter snd].
    destruct (bool_decide_reflect (url ∈ P)) as [Hin|Hout].
    + assert (Hskip : skips true url r = true).
      { unfold skips. simpl. apply bool_decide_eq_true_2, HP, Hin. }
      rewrite (entry_skipped _ _ _ _ _ _ _ _ _ Hskip) in He.
      injection He as <-.
      assert (Hs : skipped
                     (count_success (say [EchoSkipProcessed idx total url] r))
                   = S (skipped r)).
      { unfold skipped. destruct r. simpl.
        rewrite List.filter_app, length_app. simpl. lia. }
      simpl. lia.
    + assert (Hle : skipped r <= skipped r').
      { destruct (entry_next _ _ _ _ _ _ _ _ _ He) as (_ & H2 & _).
        destruct (entry_effects _ _ _ _ _ _ _ _ _ _ _ He) as (Hc & _).
        rewrite Hc, length_app in H2.
        destruct (skips true url r); simpl in H2; lia. }
      lia.
Qed.

(** X22. In resume mode, the number in "Skipping N already processed
    URLs", which [main] prints before the run, is a lower bound of the
    number of entries that the run skips when it is not interrupted: it
    counts the entries whose URL is processed at the start, and the run
    also skips a later occurrence of a URL that it has just downloaded. *)
Theorem announced_skip_count_is_a_lower_bound E p d urls opts sk :
  interrupted (process_urls E p d urls opts sk true) = false ->
  skip_count p urls <= skipped (process_urls E p d urls opts sk true).
Proof.
  intros Hni. unfold process_urls, skip_count in *.
  pose proof (loop_skips_at_least E opts sk (length urls) (processed_urls p)
                urls 1 (Run 0 0 p d [] []) (reflexivity _) Hni) as H.
  simpl in H. exact H.
Qed.

Lemma announced_skip_count_witness :
  skip_count one_processed [(1, "http://a"); (2, "http://b"); (3, "http://b")]
  <= skipped (process_urls (scripted [ok; ok; ok]) one_processed None
                [(1, "http://a"); (2, "http://b"); (3, "http://b")] opts0
                false true).
Proof.
  apply (announced_skip_count_is_a_lower_bound (scripted [ok; ok; ok])
           one_processed None
           [(1, "http://a"); (2, "http://b"); (3, "http://b")] opts0 false).
  reflexivity.
Defined.

(** In that run one URL is announced and two entries are skipped. *)
Example more_entries_skipped_than_announced :
  skip_count one_processed [(1, "http://a"); (2, "http://b"); (3, "http://b")]
  = 1
  /\ skipped (process_urls (scripted [ok; ok; ok]) one_processed None
                [(1, "http://a"); (2, "http://b"); (3, "http://b")] opts0
                false true) = 2.
Proof. split; vm_compute; reflexivity. Qed.
